(** * FX summary service: rate retrieval (cache, upstream, fallback) and
      metrics computation.

    Shallow embedding of [calculator.py], [fx_client.py] and the
    [/summary] handler of [main.py].

    - Python [float] is IEEE 754 binary64: Rocq's primitive floats.
    - Python [dict] is a finite map ([gmap]); its insertion order is only
      observed through [sorted(rates.keys())].
    - Exceptions are values of [exn]; code that may raise lives in the
      [result] monad.
    - [datetime.now()] readings and the outcome of the HTTP exchange are
      supplied by a [world] record, one per client call. *)

From Stdlib Require Import ZArith Ascii String Floats.
From Stdlib Require Uint63.
From stdpp Require Import gmap strings list sorting.

Set Default Proof Using "Type".
Set Warnings "-inexact-float".

Local Open Scope string_scope.
Local Open Scope list_scope.
Local Open Scope Z_scope.

(** ** Python run-time model *)

Module Py.

(** Why an [httpx] exchange failed: no connection, no answer within
    the timeout, a status outside 2xx ([raise_for_status]), or a body
    that is not JSON. *)
Inductive upstream_failure : Type :=
  | ConnectError
  | TimeoutException
  | HTTPStatusError (status_code : Z)
  | DecodingError.

(** The exception classes the program can meet.  All are subclasses of
    [Exception]; no one is a subclass of another, in particular FastAPI's
    [HTTPException] is not a [ValueError]. *)
Inductive exn : Type :=
  | ZeroDivisionError
  | KeyError (key : string)
  | AttributeError
  | OSError
  | ValueError (msg : string)
  | HTTPError (why : upstream_failure)
  | HTTPException (status_code : Z) (detail : string).

Inductive result (A : Type) : Type :=
  | Ok (a : A)
  | Raise (e : exn).
Arguments Ok {A} a.
Arguments Raise {A} e.

Definition bind {A B} (m : result A) (k : A -> result B) : result B :=
  match m with
  | Ok a => k a
  | Raise e => Raise e
  end.

(** [try: body except <handler>]: the handler sees every exception. *)
Definition try_except {A} (body : result A) (handler : exn -> result A)
  : result A :=
  match body with
  | Ok a => Ok a
  | Raise e => handler e
  end.

(** [str(e)] for the exceptions that carry a message. *)
Definition str (e : exn) : string :=
  match e with
  | ValueError msg => msg
  | HTTPException _ detail => detail
  | KeyError key => key
  | _ => ""
  end.

(** [a / b] on floats raises on a zero divisor (of either sign). *)
Definition truediv (a b : float) : result float :=
  if (b =? 0)%float then Raise ZeroDivisionError else Ok (a / b)%float.

(** Nearest integer to [n / d] for [0 < d], ties to the even one. *)
Definition round_half_even (n d : Z) : Z :=
  let q := n / d in
  match (2 * (n mod d)) ?= d with
  | Lt => q
  | Gt => q + 1
  | Eq => if Z.even q then q else q + 1
  end.

(** The binary64 nearest to [k / 10^ndigits], with sign [s]. *)
Definition decimal_to_float (s : bool) (k : Z) (ndigits : Z) : float :=
  match k with
  | Zpos k' =>
      SF2Prim (SFdiv prec emax (S754_finite s k' 0)
                 (S754_finite false (Z.to_pos (10 ^ ndigits)) 0))
  | _ => SF2Prim (S754_zero s)
  end.

(** [round(x, ndigits)] for a float and [0 <= ndigits]: CPython converts
    the exact binary value to the correctly rounded decimal with
    [ndigits] fractional digits and reads that decimal back as the
    nearest float.  Zeros, infinities and NaN round to themselves. *)
Definition round (x : float) (ndigits : Z) : float :=
  match Prim2SF x with
  | S754_finite s m e =>
      let p := 10 ^ ndigits in
      let k := if 0 <=? e
               then Zpos m * 2 ^ e * p
               else round_half_even (Zpos m * p) (2 ^ (- e)) in
      decimal_to_float s k ndigits
  | _ => x
  end.

(** [float(n)] for a length. *)
Definition of_nat (n : nat) : float :=
  SF2Prim (binary_normalize prec emax (Z.of_nat n) 0 false).

(** [sum(xs)]: left to right from [0].  (From Python 3.12 on, [sum]
    also carries the rounding error along and adds it at the end; for
    two addends the result is the same float.) *)
Definition sum (xs : list float) : float :=
  fold_left PrimFloat.add xs 0%float.

End Py.

Import Py.

#[global] Instance result_ret : MRet result := @Ok.
#[global] Instance result_bind : MBind result :=
  fun A B k m => Py.bind m k.

(** [sorted(keys)] on strings: ascending code-point order.  The keys of a
    dict are distinct, so the result is the one strictly ascending
    arrangement of the keys. *)
Definition str_le (a b : string) : Prop := String.leb a b = true.

#[global] Instance str_le_dec a b : Decision (str_le a b).
Proof. unfold str_le. apply _. Defined.

Definition sorted (keys : list string) : list string :=
  merge_sort str_le keys.

(** ** calculator.py *)

Module FXCalculator.

(** The value stored for one date under ['rates']: a currency-keyed
    mapping or a bare value; [None] is JSON [null]. *)
Inductive date_rates : Type :=
  | Bundle (currencies : gmap string (option float))
  | Direct (value : option float).

(** An entry of the response document: the date mapping or anything
    else (amount, base, start_date, end_date), kept as text. *)
Inductive entry : Type :=
  | Mapping (rates : gmap string date_rates)
  | Scalar (text : string).

Record daily_metric : Type := {
  date : string;
  rate : float;
  pct_change : option float
}.

Record totals : Type := {
  start_rate : option float;
  end_rate : option float;
  total_pct_change : option float;
  mean_rate : option float
}.

(** The response dict; [daily = None] means the key is not there. *)
Record response : Type := {
  base : string;
  symbol : string;
  start_date : option string;
  end_date : option string;
  breakdown : string;
  resp_totals : totals;
  daily : option (list daily_metric)
}.

Definition _safe_pct_change (old_value new_value : float)
  : result (option float) :=
  if (old_value =? 0)%float then Ok None
  else
    q ← truediv (new_value - old_value)%float old_value;
    Ok (Some (q * 100)%float).

(** Lines 36-41: the rate of one date, [None] when there is none. *)
Definition current_rate_of (dr : date_rates) : option float :=
  match dr with
  | Bundle currencies => default None (currencies !! "USD")
  | Direct value => value
  end.

(** The [for date in sorted_dates] loop, with its two loop variables. *)
Fixpoint daily_loop (rates : gmap string date_rates)
    (sorted_dates : list string)
    (daily_metrics : list daily_metric) (previous_rate : option float)
  : result (list daily_metric) :=
  match sorted_dates with
  | [] => Ok daily_metrics
  | date :: rest =>
      match rates !! date with
      | None => Raise (KeyError date)
      | Some dr =>
          match current_rate_of dr with
          | None => daily_loop rates rest daily_metrics previous_rate
          | Some current_rate =>
              pct_change ←
                match previous_rate with
                | Some previous => _safe_pct_change previous current_rate
                | None => Ok None
                end;
              daily_loop rates rest
                (daily_metrics ++
                   [ {| date := date;
                        rate := round current_rate 6;
                        pct_change := (fun p => round p 4) <$> pct_change |} ])
                (Some current_rate)
          end
      end
  end.

Definition keys (rates : gmap string date_rates) : list string :=
  (map_to_list rates).*1.

Definition calculate_daily_metrics (rates_data : gmap string entry)
  : result (list daily_metric) :=
  if bool_decide (rates_data = ∅) || bool_decide (rates_data !! "rates" = None)
  then Ok []
  else
    match rates_data !! "rates" with
    | Some (Mapping rates) => daily_loop rates (sorted (keys rates)) [] None
    | Some (Scalar _) => Raise AttributeError
    | None => Raise (KeyError "rates")
    end.

Definition calculate_totals (daily_metrics : list daily_metric)
  : result totals :=
  match daily_metrics with
  | [] =>
      Ok {| start_rate := None; end_rate := None;
            total_pct_change := None; mean_rate := None |}
  | first :: _ =>
      let start_rate := rate first in
      let end_rate := rate (List.last daily_metrics first) in
      total_pct_change ← _safe_pct_change start_rate end_rate;
      let rates := map rate daily_metrics in
      mean_rate ← truediv (sum rates) (of_nat (length rates));
      Ok {| start_rate := Some (round start_rate 6);
            end_rate := Some (round end_rate 6);
            total_pct_change := (fun p => round p 4) <$> total_pct_change;
            mean_rate := Some (round mean_rate 6) |}
  end.

Definition format_response (daily_metrics : list daily_metric)
    (totals : totals) (breakdown : string)
    (start_date end_date : option string) : response :=
  {| base := "EUR";
     symbol := "USD";
     start_date := start_date;
     end_date := end_date;
     breakdown := breakdown;
     resp_totals := totals;
     daily := if bool_decide (breakdown = "day")
              then Some daily_metrics else None |}.

End FXCalculator.

(** ** fx_client.py *)

(** Instants ([datetime]) and durations ([timedelta]) are counted in
    microseconds, the resolution of both. *)
Module FXCache.

Record t (V : Type) : Type := {
  cache : gmap string (Z * V);
  ttl : Z
}.
Arguments cache {V} _.
Arguments ttl {V} _.

Section methods.
Context {V : Type}.

Definition __init__ (ttl_seconds : Z) : t V :=
  {| cache := ∅; ttl := ttl_seconds * 1000000 |}.

(** [now] is the reading of [datetime.now()] made by the call. *)
Definition get (now : Z) (key : string) (self : t V) : option V * t V :=
  match cache self !! key with
  | Some (timestamp, value) =>
      if now - timestamp <? ttl self
      then (Some value, self)
      else (None, {| cache := delete key (cache self); ttl := ttl self |})
  | None => (None, self)
  end.

Definition set (now : Z) (key : string) (value : V) (self : t V) : t V :=
  {| cache := <[key := (now, value)]> (cache self); ttl := ttl self |}.

Definition clear (self : t V) : t V :=
  {| cache := ∅; ttl := ttl self |}.
End methods.

End FXCache.

Module FXClient.

(** One request handed to the HTTP client. *)
Record request : Type := {
  url : string;
  params : list (string * string)
}.

(** The client object; [sent] is the history of the requests it has
    issued upstream, oldest first (not a field of the Python object). *)
Record t (V : Type) : Type := {
  cache : FXCache.t V;
  sent : list request
}.
Arguments cache {V} _.
Arguments sent {V} _.

(** What the outside does during one call: the clock readings of
    [cache.get] and [cache.set], the outcome of
    [client.get; raise_for_status; json] should the request be sent,
    and the outcome of [open; json.load] on the fallback file. *)
Record world (V : Type) : Type := {
  now_get : Z;
  exchange : result V;
  now_set : Z;
  fallback_file : result V
}.
Arguments now_get {V} _.
Arguments exchange {V} _.
Arguments now_set {V} _.
Arguments fallback_file {V} _.

Definition BASE_URL : string := "https://api.frankfurter.dev/v1".

(** The [cache_key], and the [url] with its [params], of [get_range]. *)
Definition range_key (start_date end_date base symbols : string) : string :=
  "range:" +:+ start_date +:+ ":" +:+ end_date +:+ ":" +:+ base
  +:+ ":" +:+ symbols.

Definition range_request (start_date end_date base symbols : string)
  : request :=
  {| url := BASE_URL +:+ "/" +:+ start_date +:+ ".." +:+ end_date;
     params := [("base", base); ("symbols", symbols)] |}.

(** The same for [get_latest]. *)
Definition latest_key (base symbols : string) : string :=
  "latest:" +:+ base +:+ ":" +:+ symbols.

Definition latest_request (base symbols : string) : request :=
  {| url := BASE_URL +:+ "/latest";
     params := [("from", base); ("to", symbols)] |}.

Section methods.
Context {V : Type}.
(** [bool(v)] of a decoded JSON document. *)
Variable truthy : V -> bool.

Definition __init__ (cache_ttl : Z) : t V :=
  {| cache := FXCache.__init__ cache_ttl; sent := [] |}.

Definition _load_fallback (w : world V) : result V :=
  try_except (fallback_file w)
    (fun _ => Raise (ValueError
       ("Unable to fetch FX data from API and fallback file not available. "
        +:+ "Please check your connection or ensure data/sample_fx.json exists."))).

(** [get_range] and [get_latest] return their value (or raise) and
    leave the client in a new state.  [miss] is the code after the
    cache check: the request is sent, and the [try] block either
    caches and returns the decoded body or, on any exception, hands
    over to [_load_fallback]. *)
Definition get_range (w : world V)
    (start_date end_date base symbols : string) (self : t V)
  : result V * t V :=
  let cache_key := range_key start_date end_date base symbols in
  let '(cached, c) := FXCache.get (now_get w) cache_key (cache self) in
  let miss :=
    let sent' :=
      sent self ++ [ range_request start_date end_date base symbols ] in
    match exchange w with
    | Ok data =>
        (Ok data,
         {| cache := FXCache.set (now_set w) cache_key data c;
            sent := sent' |})
    | Raise e => (_load_fallback w, {| cache := c; sent := sent' |})
    end in
  match cached with
  | Some v =>
      if truthy v then (Ok v, {| cache := c; sent := sent self |})
      else miss
  | None => miss
  end.

Definition get_latest (w : world V) (base symbols : string) (self : t V)
  : result V * t V :=
  let cache_key := latest_key base symbols in
  let '(cached, c) := FXCache.get (now_get w) cache_key (cache self) in
  let miss :=
    let sent' := sent self ++ [ latest_request base symbols ] in
    match exchange w with
    | Ok data =>
        (Ok data,
         {| cache := FXCache.set (now_set w) cache_key data c;
            sent := sent' |})
    | Raise e => (_load_fallback w, {| cache := c; sent := sent' |})
    end in
  match cached with
  | Some v =>
      if truthy v then (Ok v, {| cache := c; sent := sent self |})
      else miss
  | None => miss
  end.
End methods.

End FXClient.

(** ** main.py *)

Module Main.
Import FXCalculator.

(** [bool(d)] of a dict: it has an entry. *)
Definition truthy (rates_data : gmap string entry) : bool :=
  negb (bool_decide (rates_data = ∅)).

Section handler.
(** [datetime.strptime(s, fmt)]: an instant, or an exception
    ([ValueError] when [s] does not match [fmt]). *)
Variable strptime : string -> string -> result Z.

(** Lines 84-96. *)
Definition validate_dates (start end_ : string) : result unit :=
  try_except
    (start_dt ← strptime start "%Y-%m-%d";
     end_dt ← strptime end_ "%Y-%m-%d";
     if end_dt <? start_dt
     then Raise (HTTPException 400
                   "Start date must be before or equal to end date")
     else Ok tt)
    (fun e =>
       match e with
       | ValueError _ =>
           Raise (HTTPException 400
                    ("Invalid date format. Use YYYY-MM-DD: " +:+ str e))
       | _ => Raise e
       end).

(** Lines 99-103. *)
Definition validate_breakdown (breakdown : string) : result unit :=
  if bool_decide (breakdown ∈ ["day"; "none"])
  then Ok tt
  else Raise (HTTPException 400 "Breakdown must be 'day' or 'none'").

(** Lines 138-145: [except ValueError] first, then [except Exception]. *)
Definition on_error (e : exn) : result response :=
  match e with
  | ValueError _ => Raise (HTTPException 503 (str e))
  | _ => Raise (HTTPException 500 "Internal server error processing FX data")
  end.

(** Lines 107-136, after the client has answered with [rates_data]. *)
Definition summarise (rates_data : gmap string entry)
    (start end_ breakdown : string) : result response :=
  daily_metrics ← calculate_daily_metrics rates_data;
  match daily_metrics with
  | [] =>
      Raise (HTTPException 404
               "No rate data available for the specified date range")
  | _ =>
      totals ← calculate_totals daily_metrics;
      Ok (format_response daily_metrics totals breakdown
            (Some start) (Some end_))
  end.

Definition get_summary (w : FXClient.world (gmap string entry))
    (start end_ breakdown : string)
    (fx_client : FXClient.t (gmap string entry))
  : result response * FXClient.t (gmap string entry) :=
  match validate_dates start end_ with
  | Raise e => (Raise e, fx_client)
  | Ok _ =>
      match validate_breakdown breakdown with
      | Raise e => (Raise e, fx_client)
      | Ok _ =>
          let '(fetched, fx_client') :=
            FXClient.get_range truthy w start end_ "EUR" "USD" fx_client in
          (try_except
             (rates_data ← fetched;
              summarise rates_data start end_ breakdown)
             on_error,
           fx_client')
      end
  end.
End handler.

End Main.

(** [get_summary_view], lines 148-190.  The template engine is outside
    the program: [render] stands for
    [templates.TemplateResponse("summary.html", ...)] applied to the data
    and the three query parameters, and may raise. *)
Module View.

Section handler.
Variable strptime : string -> string -> result Z.
Variable render :
  FXCalculator.response -> string -> string -> string -> result string.

Definition get_summary_view (w : FXClient.world (gmap string FXCalculator.entry))
    (start end_ breakdown : string)
    (fx_client : FXClient.t (gmap string FXCalculator.entry))
  : result string * FXClient.t (gmap string FXCalculator.entry) :=
  let '(answer, fx_client') :=
    Main.get_summary strptime w start end_ breakdown fx_client in
  (try_except
     (data ← answer; render data start end_ breakdown)
     (fun e =>
        match e with
        | HTTPException _ _ => Raise e
        | _ => Raise (HTTPException 500 "Error rendering visualization")
        end),
   fx_client').
End handler.

End View.

(** ** Calls made one after another on the same client object *)

Module Session.

Inductive call (V : Type) : Type :=
  | Range (w : FXClient.world V) (start_date end_date base symbols : string)
  | Latest (w : FXClient.world V) (base symbols : string).
Arguments Range {V} w start_date end_date base symbols.
Arguments Latest {V} w base symbols.

Definition world_of {V : Type} (c : call V) : FXClient.world V :=
  match c with
  | Range w _ _ _ _ => w
  | Latest w _ _ => w
  end.

(** The client as one call leaves it. *)
Definition after {V : Type} (truthy : V -> bool) (self : FXClient.t V)
    (c : call V) : FXClient.t V :=
  match c with
  | Range w start_date end_date base symbols =>
      (FXClient.get_range truthy w start_date end_date base symbols self).2
  | Latest w base symbols =>
      (FXClient.get_latest truthy w base symbols self).2
  end.

(** The client as a sequence of calls leaves it. *)
Definition run {V : Type} (truthy : V -> bool) (calls : list (call V))
    (self : FXClient.t V) : FXClient.t V :=
  foldl (after truthy) self calls.

End Session.

(** ** Reference descriptions used by the statements below

    These are not taken from the code: they say, in the words of the
    specification, what the code is compared with. *)

Module Reference.
Import FXCalculator.

(** Strict ascending order of date keys as Python compares [str]. *)
Definition str_lt (a b : string) : Prop := String.ltb a b = true.

(** The rate a date carries in the series, if any. *)
Definition rate_on (rates : gmap string date_rates) (d : string)
  : option float :=
  rates !! d ≫= current_rate_of.

(** The quote-currency rate of a date, in the words of the
    specification: the bare number when the date holds one, the number
    under ["USD"] when the date holds a currency-keyed bundle; none when
    the date is not in the series, holds [null], or holds a bundle with
    no ["USD"] entry (or [null] under it). *)
Definition usd_rate (rates : gmap string date_rates) (d : string)
  : option float :=
  match rates !! d with
  | Some (Direct (Some x)) => Some x
  | Some (Bundle currencies) =>
      match currencies !! "USD" with
      | Some (Some x) => Some x
      | _ => None
      end
  | _ => None
  end.

(** The dates that carry a rate, ascending, each with its rate. *)
Definition dated_rates (rates : gmap string date_rates)
  : list (string * float) :=
  omap (fun d => pair d <$> rate_on rates d) (sorted (keys rates)).

(** Percentage change between two rates, zero guard and rounding
    included. *)
Definition change (previous current : float) : option float :=
  if (previous =? 0)%float then None
  else Some (round (((current - previous) / previous) * 100)%float 4).

(** The metrics of a run of dated rates, each change taken from the
    rate emitted just before. *)
Fixpoint chain (previous : option float) (l : list (string * float))
  : list daily_metric :=
  match l with
  | [] => []
  | (d, current) :: l' =>
      {| date := d;
         rate := round current 6;
         pct_change := previous ≫= (fun p => change p current) |}
      :: chain (Some current) l'
  end.

(** ISO 8601 calendar dates, [YYYY-MM-DD]. *)
Definition digit (c : ascii) : option N :=
  let n := Ascii.N_of_ascii c in
  if ((48 <=? n) && (n <=? 57))%N then Some (n - 48)%N else None.

Definition number (cs : list ascii) : option N :=
  foldl (fun acc c => a ← acc; d ← digit c; Some (10 * a + d)%N)
    (Some 0%N) cs.

Definition parse_iso (s : string) : option (N * N * N) :=
  match list_ascii_of_string s with
  | [y1; y2; y3; y4; s1; m1; m2; s2; d1; d2] =>
      if bool_decide (s1 = "-"%char ∧ s2 = "-"%char) then
        y ← number [y1; y2; y3; y4];
        m ← number [m1; m2];
        d ← number [d1; d2];
        Some (y, m, d)
      else None
  | _ => None
  end.

(** Earlier in the calendar: by year, then month, then day. *)
Definition date_lt (a b : N * N * N) : Prop :=
  let '(y1, m1, d1) := a in
  let '(y2, m2, d2) := b in
  (y1 < y2 \/ (y1 = y2 /\ (m1 < m2 \/ (m1 = m2 /\ d1 < d2))))%N.

(** [a] comes before [b] in the calendar; both are ISO dates. *)
Definition calendar_lt (a b : string) : Prop :=
  match parse_iso a, parse_iso b with
  | Some da, Some db => date_lt da db
  | _, _ => False
  end.

(** The text holds no [":"], the separator of the cache keys. *)
Fixpoint colon_free (s : string) : bool :=
  match s with
  | EmptyString => true
  | String c s' => negb (Ascii.eqb c ":"%char) && colon_free s'
  end.

(** A cache miss as the client sees it: the lookup gave nothing it will
    use, be it no entry, an expired one, or a value that is false as a
    condition. *)
Definition nothing_usable {V : Type} (truthy : V -> bool)
    (now : Z) (key : string) (c : FXCache.t V) : Prop :=
  forall v, (FXCache.get now key c).1 = Some v -> truthy v = false.

End Reference.

(** ** Sample inputs *)

Module Examples.
Import FXCalculator.

(** [{"2025-01-01": 1.10, "2025-01-02": 1.21}] *)
Definition two_day_series : gmap string date_rates :=
  <["2025-01-02" := Direct (Some 1.21%float)]>
    (<["2025-01-01" := Direct (Some 1.10%float)]> ∅).

Definition two_day : gmap string entry :=
  {[ "rates" := Mapping two_day_series ]}.

(** The same series as the provider sends it, each rate under ["USD"]. *)
Definition two_day_bundled : gmap string entry :=
  {[ "rates" := Mapping
       (<["2025-01-02" := Bundle {[ "USD" := Some 1.21%float ]}]>
          (<["2025-01-01" := Bundle {[ "USD" := Some 1.10%float ]}]> ∅)) ]}.

(** A zero rate, a date without a USD rate, then a nonzero rate. *)
Definition zero_then_nonzero_series : gmap string date_rates :=
  <["2025-01-03" := Direct (Some 1.25%float)]>
    (<["2025-01-02" := Bundle {[ "GBP" := Some 0.84%float ]}]>
       (<["2025-01-01" := Direct (Some 0%float)]> ∅)).

Definition zero_then_nonzero : gmap string entry :=
  {[ "rates" := Mapping zero_then_nonzero_series ]}.

(** A rate that is not zero but rounds to zero at 6 places, then 1.0. *)
Definition tiny_then_one : gmap string entry :=
  {[ "rates" := Mapping
       (<["2025-01-02" := Direct (Some 1%float)]>
          (<["2025-01-01" := Direct (Some 4e-7%float)]> ∅)) ]}.

(** Bundles as the provider sends them: the first and the last date
    carry USD among other currencies, the second carries none, the third
    is [null]. *)
Definition gapped_series : gmap string date_rates :=
  <["2025-01-04" := Bundle {[ "USD" := Some 1.21%float ]}]>
    (<["2025-01-03" := Direct None]>
       (<["2025-01-02" := Bundle {[ "GBP" := Some 0.85%float ]}]>
          {[ "2025-01-01" := Bundle (<["GBP" := Some 0.84%float]>
                                       {[ "USD" := Some 1.10%float ]}) ]})).

Definition gapped : gmap string entry :=
  {[ "rates" := Mapping gapped_series ]}.

(** A document whose dates all lack the USD rate. *)
Definition no_usd : gmap string entry :=
  {[ "rates" := Mapping {[ "2025-01-01" := Bundle {[ "GBP" := Some 0.84%float ]} ]} ]}.

(** A stand-in for [datetime.strptime] on ISO dates: a day count that
    grows with the calendar, [ValueError] on anything else. *)
Definition strptime_iso (s fmt : string) : result Z :=
  match Reference.parse_iso s with
  | Some (y, m, d) => Ok (Z.of_N ((y * 12 + m) * 31 + d))
  | None => Raise (ValueError "time data does not match format")
  end.

(** Instants below are microseconds; the TTL is 300 s. *)
Definition fresh_client : FXClient.t (gmap string entry) :=
  FXClient.__init__ 300.

(** A client whose cache holds, for the January range, a document stored
    at instant 0. *)
Definition client_with_old_entry : FXClient.t (gmap string entry) :=
  {| FXClient.cache :=
       FXCache.set 0
         (FXClient.range_key "2025-01-01" "2025-01-02" "EUR" "USD")
         two_day (FXCache.__init__ 300);
     FXClient.sent := [] |}.

(** The provider answers 500; the fallback file holds [two_day]. *)
Definition upstream_down (now : Z) : FXClient.world (gmap string entry) :=
  {| FXClient.now_get := now;
     FXClient.exchange := Raise (HTTPError (HTTPStatusError 500));
     FXClient.now_set := now;
     FXClient.fallback_file := Ok two_day |}.

(** The provider answers 500 and the fallback file is missing. *)
Definition all_down (now : Z) : FXClient.world (gmap string entry) :=
  {| FXClient.now_get := now;
     FXClient.exchange := Raise (HTTPError (HTTPStatusError 500));
     FXClient.now_set := now;
     FXClient.fallback_file := Raise OSError |}.

(** The provider answers with [doc], half a second after the lookup. *)
Definition upstream_up (now : Z) (doc : gmap string entry)
  : FXClient.world (gmap string entry) :=
  {| FXClient.now_get := now;
     FXClient.exchange := Ok doc;
     FXClient.now_set := now + 500000;
     FXClient.fallback_file := Ok two_day |}.

End Examples.

(** * Properties *)

Import FXCalculator Reference.

(** ** Order of date keys *)

Section string_order.

Lemma compare_refl (s : string) : String.compare s s = Eq.
Proof.
  induction s as [|c s IH]; simpl; [done|].
  unfold Ascii.compare. by rewrite N.compare_refl.
Qed.

Lemma compare_lt_trans (a b c : string) :
  String.compare a b = Lt -> String.compare b c = Lt ->
  String.compare a c = Lt.
Proof.
  revert b c. induction a as [|x a IH]; intros [|y b] [|z c]; simpl; try done.
  unfold Ascii.compare.
  destruct (N.compare_spec (Ascii.N_of_ascii x) (Ascii.N_of_ascii y)) as [Hxy|Hxy|Hxy];
    destruct (N.compare_spec (Ascii.N_of_ascii y) (Ascii.N_of_ascii z)) as [Hyz|Hyz|Hyz];
    try done; intros Hab Hbc.
  - rewrite Hxy, Hyz, N.compare_refl. eauto.
  - rewrite Hxy. by apply N.compare_lt_iff in Hyz as ->.
  - rewrite <- Hyz. by apply N.compare_lt_iff in Hxy as ->.
  - assert (Ascii.N_of_ascii x < Ascii.N_of_ascii z)%N as Hxz by lia.
    by apply N.compare_lt_iff in Hxz as ->.
Qed.

Lemma str_le_cases (a b : string) : str_le a b <-> str_lt a b \/ a = b.
Proof.
  unfold str_le, str_lt, String.leb, String.ltb. split.
  - destruct (String.compare a b) eqn:E; try done; [|by left].
    right. by apply String.compare_eq_iff.
  - intros [H | ->]; [by destruct (String.compare a b)|].
    by rewrite compare_refl.
Qed.

Lemma str_lt_irrefl (a : string) : ~ str_lt a a.
Proof. unfold str_lt, String.ltb. by rewrite compare_refl. Qed.

Lemma str_lt_trans (a b c : string) : str_lt a b -> str_lt b c -> str_lt a c.
Proof.
  unfold str_lt, String.ltb. intros Hab Hbc.
  destruct (String.compare a b) eqn:E1; try done.
  destruct (String.compare b c) eqn:E2; try done.
  by rewrite (compare_lt_trans a b c).
Qed.

#[global] Instance str_le_total : Total str_le.
Proof. intros a b. apply String.leb_total. Qed.

#[global] Instance str_le_antisym : AntiSymm eq str_le.
Proof. intros a b. apply String.leb_antisym. Qed.

#[global] Instance str_le_trans : Transitive str_le.
Proof.
  intros a b c [Hab| ->]%str_le_cases [Hbc| ->]%str_le_cases;
    apply str_le_cases; eauto using str_lt_trans.
Qed.

Lemma sorted_Permutation (l : list string) : sorted l ≡ₚ l.
Proof. apply merge_sort_Permutation. Qed.

Lemma sorted_ascending (l : list string) : StronglySorted str_le (sorted l).
Proof. apply StronglySorted_merge_sort; apply _. Qed.

(** Any two listings of the same keys sort to the same list. *)
Lemma sorted_unique (l1 l2 : list string) : l1 ≡ₚ l2 -> sorted l1 = sorted l2.
Proof.
  intros H. apply (StronglySorted_unique str_le); try apply sorted_ascending.
  by rewrite !sorted_Permutation.
Qed.

Lemma ascending_strict (l : list string) :
  NoDup l -> StronglySorted str_le l -> StronglySorted str_lt l.
Proof.
  induction 2 as [|a l Hs IH Hall]; [constructor|].
  apply NoDup_cons in H as [Hnotin Hnd].
  constructor; [by apply IH|].
  apply Forall_forall. intros b Hb.
  rewrite Forall_forall in Hall.
  destruct (proj1 (str_le_cases a b) (Hall b Hb)) as [?| ->]; done.
Qed.

Lemma sublist_ascending (l1 l2 : list string) :
  l1 `sublist_of` l2 -> StronglySorted str_lt l2 -> StronglySorted str_lt l1.
Proof.
  induction 1 as [|a l1 l2 Hsub IH|a l1 l2 Hsub IH];
    intros Hs; [done| |]; apply StronglySorted_inv in Hs as [Hs Hall].
  - constructor; [by apply IH|].
    apply Forall_forall. intros b Hb. rewrite Forall_forall in Hall.
    apply Hall. by eapply elem_of_sublist.
  - by apply IH.
Qed.

Lemma sorted_strict (l : list string) :
  NoDup l -> StronglySorted str_lt (sorted l).
Proof.
  intros H. apply ascending_strict; [|apply sorted_ascending].
  by rewrite sorted_Permutation.
Qed.

End string_order.

(** ** The daily loop *)

Section daily_metrics.
Implicit Types (rates : gmap string date_rates) (d : string).
Implicit Types (l : list (string * float)) (previous : option float).

Lemma _safe_pct_change_Ok (old_value new_value : float) :
  _safe_pct_change old_value new_value =
  Ok (if (old_value =? 0)%float then None
      else Some (((new_value - old_value) / old_value) * 100)%float).
Proof.
  unfold _safe_pct_change, truediv, mbind, result_bind, Py.bind.
  by destruct (old_value =? 0)%float.
Qed.

Lemma elem_of_keys rates d : d ∈ keys rates <-> is_Some (rates !! d).
Proof.
  unfold keys. rewrite list_elem_of_fmap. split.
  - intros [[d' dr] [-> H]]. apply elem_of_map_to_list in H. by exists dr.
  - intros [dr H]. exists (d, dr). split; [done|]. by apply elem_of_map_to_list.
Qed.

Lemma NoDup_keys rates : NoDup (keys rates).
Proof. apply NoDup_fst_map_to_list. Qed.

Lemma length_keys rates : length (keys rates) = size rates.
Proof. unfold keys. by rewrite length_fmap, length_map_to_list. Qed.

(** The loop refines [chain]: it never raises on dates that are keys, and
    appends to what was emitted so far the chain of the dates that carry
    a rate. *)
Lemma daily_loop_chain rates (dates : list string)
    (daily_metrics : list daily_metric) previous :
  Forall (fun d => is_Some (rates !! d)) dates ->
  daily_loop rates dates daily_metrics previous =
  Ok (daily_metrics ++
      chain previous (omap (fun d => pair d <$> rate_on rates d) dates)).
Proof.
  intros Hkeys. revert daily_metrics previous.
  induction Hkeys as [|d dates [dr Hd] _ IH]; intros daily_metrics previous.
  - simpl. by rewrite app_nil_r.
  - simpl. unfold rate_on at 1. rewrite Hd. simpl.
    destruct (current_rate_of dr) as [current|]; simpl; [|apply IH].
    assert (match previous with
            | Some p => _safe_pct_change p current
            | None => Ok None
            end = Ok (previous ≫= (fun p =>
              if (p =? 0)%float then None
              else Some (((current - p) / p) * 100)%float)))
      as ->.
    { destruct previous; [apply _safe_pct_change_Ok|done]. }
    simpl. rewrite IH, <- app_assoc. simpl. do 4 f_equal.
    destruct previous as [p|]; [|done]. simpl. unfold change.
    by destruct (p =? 0)%float.
Qed.

Lemma calculate_daily_metrics_chain (rates_data : gmap string entry) rates :
  rates_data !! "rates" = Some (Mapping rates) ->
  calculate_daily_metrics rates_data = Ok (chain None (dated_rates rates)).
Proof.
  intros H. unfold calculate_daily_metrics. rewrite H.
  rewrite bool_decide_eq_false_2; [|by intros ->].
  rewrite bool_decide_eq_false_2; [|done]. simpl.
  rewrite daily_loop_chain; [done|].
  apply Forall_forall. intros d Hd.
  apply elem_of_keys. by rewrite <- (sorted_Permutation (keys rates)).
Qed.

Lemma calculate_daily_metrics_no_rates (rates_data : gmap string entry) :
  rates_data !! "rates" = None -> calculate_daily_metrics rates_data = Ok [].
Proof.
  intros H. unfold calculate_daily_metrics.
  rewrite (bool_decide_eq_true_2 (_ !! _ = None)); [|done].
  by rewrite orb_true_r.
Qed.

(** *** Facts about [chain] *)

Lemma chain_dates previous l : date <$> chain previous l = l.*1.
Proof.
  revert previous. induction l as [|[d c] l IH]; intros previous; [done|].
  simpl. by rewrite IH.
Qed.

Lemma length_chain previous l : length (chain previous l) = length l.
Proof. by rewrite <- (length_fmap date), chain_dates, length_fmap. Qed.

Lemma chain_lookup_first previous l m :
  chain previous l !! 0%nat = Some m ->
  exists d c, l !! 0%nat = Some (d, c) /\
    m = {| date := d; rate := round c 6;
           pct_change := previous ≫= (fun p => change p c) |}.
Proof.
  destruct l as [|[d c] l]; [done|]. simpl. intros [= <-]. eauto.
Qed.

(** Each later entry takes its change from the entry just before it. *)
Lemma chain_lookup_next previous l (i : nat) m :
  chain previous l !! S i = Some m ->
  exists d0 c0 d c,
    l !! i = Some (d0, c0) /\ l !! S i = Some (d, c) /\
    m = {| date := d; rate := round c 6; pct_change := change c0 c |}.
Proof.
  revert previous i. induction l as [|[d0 c0] l IH]; intros previous i; [done|].
  simpl. destruct i as [|i].
  - intros H. apply chain_lookup_first in H as (d & c & Hl & ->).
    exists d0, c0, d, c. eauto.
  - intros H. apply IH in H as (d1 & c1 & d & c & H1 & H2 & ->).
    exists d1, c1, d, c. eauto.
Qed.

(** *** Facts about [dated_rates] *)

Lemma elem_of_dated_rates rates d c :
  (d, c) ∈ dated_rates rates <-> rate_on rates d = Some c.
Proof.
  unfold dated_rates. rewrite list_elem_of_omap. split.
  - intros (d' & _ & H). destruct (rate_on rates d') eqn:E; simplify_eq/=.
    done.
  - intros H. exists d. rewrite H. split; [|done].
    rewrite sorted_Permutation. apply elem_of_keys.
    unfold rate_on in H. destruct (rates !! d); [eauto|done].
Qed.

Lemma omap_dates_sublist rates (dates : list string) :
  (omap (fun d => pair d <$> rate_on rates d) dates).*1 `sublist_of` dates.
Proof.
  induction dates as [|d dates IH]; simpl; [constructor|].
  destruct (rate_on rates d); simpl; by constructor.
Qed.

Lemma length_dated_rates rates : (length (dated_rates rates) <= size rates)%nat.
Proof.
  rewrite <- length_keys, <- (length_fmap fst).
  rewrite <- (Permutation_length (sorted_Permutation (keys rates))).
  apply sublist_length, omap_dates_sublist.
Qed.

Lemma dated_rates_ascending rates :
  StronglySorted str_lt (dated_rates rates).*1.
Proof.
  eapply sublist_ascending; [apply omap_dates_sublist|].
  apply sorted_strict, NoDup_keys.
Qed.

End daily_metrics.

(** ** ISO dates: code-point order is calendar order *)

Section calendar.

Lemma digit_Some (c : ascii) (n : N) :
  digit c = Some n -> Ascii.N_of_ascii c = (n + 48)%N /\ (n <= 9)%N.
Proof.
  unfold digit. destruct (_ && _) eqn:E; [|done].
  apply andb_true_iff in E as [?%N.leb_le ?%N.leb_le]. intros [= <-]. lia.
Qed.

Lemma number_snoc (cs : list ascii) (c : ascii) (n : N) :
  number (cs ++ [c]) = Some n ->
  exists a d, number cs = Some a /\ digit c = Some d /\ n = (10 * a + d)%N.
Proof.
  unfold number. rewrite foldl_app. simpl.
  destruct (foldl _ _ cs) as [a|]; [|done]. simpl.
  destruct (digit c) as [d|]; [|done]. simpl. intros [= <-]. eauto.
Qed.

Lemma number_2 (c1 c2 : ascii) (n : N) :
  number [c1; c2] = Some n ->
  exists a b,
    Ascii.N_of_ascii c1 = (a + 48)%N /\ Ascii.N_of_ascii c2 = (b + 48)%N /\
    (a <= 9)%N /\ (b <= 9)%N /\ n = (10 * a + b)%N.
Proof.
  intros H.
  apply (number_snoc [c1]) in H as (x & b & H & Hb%digit_Some & ->).
  apply (number_snoc []) in H as (z & a & [= <-] & Ha%digit_Some & ->).
  exists a, b. intuition lia.
Qed.

Lemma number_4 (c1 c2 c3 c4 : ascii) (n : N) :
  number [c1; c2; c3; c4] = Some n ->
  exists a b c d,
    Ascii.N_of_ascii c1 = (a + 48)%N /\ Ascii.N_of_ascii c2 = (b + 48)%N /\
    Ascii.N_of_ascii c3 = (c + 48)%N /\ Ascii.N_of_ascii c4 = (d + 48)%N /\
    (a <= 9)%N /\ (b <= 9)%N /\ (c <= 9)%N /\ (d <= 9)%N /\
    n = (1000 * a + 100 * b + 10 * c + d)%N.
Proof.
  intros H.
  apply (number_snoc [c1; c2; c3]) in H as (x & d & H & Hd%digit_Some & ->).
  apply (number_snoc [c1; c2]) in H as (x' & c & H & Hc%digit_Some & ->).
  apply number_2 in H as (a & b & ? & ? & ? & ? & ->).
  exists a, b, c, d. intuition lia.
Qed.

Lemma parse_iso_shape (s : string) (y m d : N) :
  parse_iso s = Some (y, m, d) ->
  exists y1 y2 y3 y4 m1 m2 d1 d2,
    s = string_of_list_ascii
          [y1; y2; y3; y4; "-"%char; m1; m2; "-"%char; d1; d2] /\
    number [y1; y2; y3; y4] = Some y /\
    number [m1; m2] = Some m /\ number [d1; d2] = Some d.
Proof.
  unfold parse_iso. intros H.
  rewrite <- (string_of_list_ascii_of_string s).
  destruct (list_ascii_of_string s)
    as [|y1 [|y2 [|y3 [|y4 [|s1 [|m1 [|m2 [|s2 [|d1 [|d2 [|? ?]]]]]]]]]]];
    try done.
  cbv beta iota in H.
  destruct (bool_decide _) eqn:Hs; [|discriminate H].
  apply bool_decide_eq_true in Hs as [-> ->].
  destruct (number [y1; y2; y3; y4]) as [y'|] eqn:Ey; [|done].
  destruct (number [m1; m2]) as [m'|] eqn:Em; [|done].
  destruct (number [d1; d2]) as [d'|] eqn:Ed; [|done].
  simpl in H. injection H as -> -> ->.
  by exists y1, y2, y3, y4, m1, m2, d1, d2.
Qed.

(** On ISO dates the order Python sorts by is the order of the calendar. *)
Lemma iso_order (a b : string) :
  is_Some (parse_iso a) -> is_Some (parse_iso b) ->
  str_lt a b -> calendar_lt a b.
Proof.
  intros [[[y m] d] Ha] [[[y' m'] d'] Hb] Hlt.
  unfold calendar_lt. rewrite Ha, Hb.
  apply parse_iso_shape in Ha
    as (y1 & y2 & y3 & y4 & m1 & m2 & d1 & d2 & -> & Hy & Hm & Hd).
  apply parse_iso_shape in Hb
    as (z1 & z2 & z3 & z4 & n1 & n2 & e1 & e2 & -> & Hy' & Hm' & Hd').
  apply number_4 in Hy as (?&?&?&?&Hy1&Hy2&Hy3&Hy4&?&?&?&?&->).
  apply number_4 in Hy' as (?&?&?&?&Hz1&Hz2&Hz3&Hz4&?&?&?&?&->).
  apply number_2 in Hm as (?&?&Hm1&Hm2&?&?&->).
  apply number_2 in Hm' as (?&?&Hn1&Hn2&?&?&->).
  apply number_2 in Hd as (?&?&Hd1&Hd2&?&?&->).
  apply number_2 in Hd' as (?&?&He1&He2&?&?&->).
  unfold str_lt, String.ltb in Hlt. simpl in Hlt.
  unfold Ascii.compare in Hlt.
  rewrite Hy1, Hy2, Hy3, Hy4, Hz1, Hz2, Hz3, Hz4,
    Hm1, Hm2, Hn1, Hn2, Hd1, Hd2, He1, He2 in Hlt.
  simpl (Ascii.N_of_ascii "-") in Hlt.
  unfold date_lt.
  repeat match type of Hlt with
  | context [(?p ?= ?q)%N] => destruct (N.compare_spec p q); try done; try lia
  end.
Qed.

Lemma ascending_calendar (l : list string) :
  Forall (fun d => is_Some (parse_iso d)) l ->
  StronglySorted str_lt l -> StronglySorted calendar_lt l.
Proof.
  intros Hiso. induction 1 as [|a l Hs IH Hall]; [constructor|].
  apply Forall_cons in Hiso as [Ha Hl].
  constructor; [by apply IH|].
  rewrite Forall_forall in Hall, Hl. apply Forall_forall. intros b Hb.
  apply iso_order; auto.
Qed.

End calendar.

(** ** Dates without a rate *)

Section skipped_dates.
Implicit Types (rates : gmap string date_rates) (k d : string).

Lemma keys_delete rates k dr :
  rates !! k = Some dr -> k :: keys (delete k rates) ≡ₚ keys rates.
Proof.
  intros H. unfold keys.
  by rewrite <- (map_to_list_delete rates k dr H).
Qed.

Lemma filter_ascending (P : string -> Prop) `{!forall x, Decision (P x)}
    (l : list string) :
  StronglySorted str_le l -> StronglySorted str_le (filter P l).
Proof.
  induction 1 as [|a l Hs IH Hall]; [constructor|].
  rewrite filter_cons. case_decide; [|done].
  constructor; [done|].
  apply Forall_forall. intros b [_ Hb]%list_elem_of_filter.
  rewrite Forall_forall in Hall. auto.
Qed.

Lemma filter_all (P : string -> Prop) `{!forall x, Decision (P x)}
    (l : list string) :
  Forall P l -> filter P l = l.
Proof.
  induction 1 as [|a l Ha _ IH]; [done|].
  rewrite filter_cons, decide_True by done. by rewrite IH.
Qed.

Lemma sorted_keys_delete rates k dr :
  rates !! k = Some dr ->
  sorted (keys (delete k rates)) = filter (fun d => d ≠ k) (sorted (keys rates)).
Proof.
  intros H. apply (StronglySorted_unique str_le).
  - apply sorted_ascending.
  - apply filter_ascending, sorted_ascending.
  - rewrite !sorted_Permutation, <- (keys_delete rates k dr H).
    rewrite filter_cons, decide_False by naive_solver.
    rewrite filter_all; [done|].
    apply Forall_forall. intros d [x Hd]%elem_of_keys ->.
    by rewrite lookup_delete_eq in Hd.
Qed.

Lemma omap_step {B} (f : string -> option B) a (l : list string) :
  omap f (a :: l) =
  match f a with Some y => y :: omap f l | None => omap f l end.
Proof. done. Qed.

Lemma omap_skip {B} (f : string -> option B) k (l : list string) :
  f k = None -> omap f (filter (fun d => d ≠ k) l) = omap f l.
Proof.
  intros Hk. induction l as [|a l IH]; [done|].
  rewrite filter_cons.
  destruct (decide (a = k)) as [->|Ha].
  - rewrite decide_False by naive_solver.
    rewrite IH. simpl. by rewrite Hk.
  - rewrite decide_True by done.
    by rewrite !omap_step, IH.
Qed.

Lemma omap_agree {B} (f g : string -> option B) (l : list string) :
  Forall (fun d => f d = g d) l -> omap f l = omap g l.
Proof.
  induction 1 as [|a l Ha _ IH]; [done|]. by rewrite !omap_step, Ha, IH.
Qed.

(** Taking a date without a rate out of the series changes nothing. *)
Lemma dated_rates_delete rates k :
  rate_on rates k = None -> dated_rates (delete k rates) = dated_rates rates.
Proof.
  intros Hk. destruct (rates !! k) as [dr|] eqn:E.
  - unfold dated_rates. rewrite (sorted_keys_delete rates k dr E).
    rewrite <- (omap_skip (fun d => pair d <$> rate_on rates d) k) by (by rewrite Hk).
    apply omap_agree, Forall_forall.
    intros d [Hd _]%list_elem_of_filter.
    unfold rate_on. by rewrite lookup_delete_ne by congruence.
  - by rewrite delete_id.
Qed.
End skipped_dates.

(** ** What each emitted entry holds *)

Section emitted_entries.
Implicit Types (rates : gmap string date_rates).

Lemma chain_lookup_entry previous (l : list (string * float)) (i : nat) m :
  chain previous l !! i = Some m ->
  exists c, l !! i = Some (date m, c) /\ rate m = round c 6.
Proof.
  revert previous i. induction l as [|[d c] l IH]; intros previous i; [done|].
  destruct i as [|i]; simpl.
  - intros [= <-]. by exists c.
  - apply IH.
Qed.

Lemma dated_rates_lookup rates (i : nat) d c :
  dated_rates rates !! i = Some (d, c) -> rate_on rates d = Some c.
Proof. intros H. apply elem_of_dated_rates. by eapply list_elem_of_lookup_2. Qed.

(** Entry [i] of the output: its date carries the rate [c] in the input,
    its rate is [c] rounded, and its change is taken from the unrounded
    rate of entry [i - 1], there being none for the first. *)
Lemma emitted_entry rates (i : nat) m :
  chain None (dated_rates rates) !! i = Some m ->
  exists c, rate_on rates (date m) = Some c /\ rate m = round c 6 /\
    match i with
    | O => pct_change m = None
    | S j => exists m0 c0,
        chain None (dated_rates rates) !! j = Some m0 /\
        rate_on rates (date m0) = Some c0 /\
        pct_change m = change c0 c
    end.
Proof.
  intros H.
  destruct (chain_lookup_entry _ _ _ _ H) as (c & Hl & Hr).
  exists c. split; [by eapply dated_rates_lookup|]. split; [done|].
  destruct i as [|j].
  - by apply chain_lookup_first in H as (? & ? & _ & ->).
  - destruct (chain_lookup_next _ _ _ _ H) as (d0 & c0 & d1 & c1 & H0 & H1 & ->).
    simpl in Hl. rewrite H1 in Hl. injection Hl as <-.
    destruct (chain None (dated_rates rates) !! j) as [m0|] eqn:E.
    + destruct (chain_lookup_entry _ _ _ _ E) as (c0' & Hl0 & _).
      rewrite H0 in Hl0. injection Hl0 as -> <-.
      exists m0, c0. split; [done|]. split; [|done].
      by eapply dated_rates_lookup.
    + apply lookup_ge_None in E. rewrite length_chain in E.
      apply lookup_lt_Some in H0. lia.
Qed.

End emitted_entries.

(** ** Metrics engine: the stated properties *)

Import Examples.

(** C8. On empty input [calculate_daily_metrics] returns the empty list,
    for the empty document as for a document whose series is empty, and
    [calculate_totals] of the empty list returns a summary whose four
    fields are all [None]; neither raises. *)
Theorem empty_input_gives_empty_output :
  calculate_daily_metrics ∅ = Ok [] /\
  calculate_daily_metrics {[ "rates" := Mapping ∅ ]} = Ok [] /\
  calculate_totals [] =
    Ok {| start_rate := None; end_rate := None;
          total_pct_change := None; mean_rate := None |}.
Proof.
  split; [|split].
  - by apply calculate_daily_metrics_no_rates.
  - by rewrite (calculate_daily_metrics_chain _ ∅).
  - done.
Qed.

(** C9. With breakdown ["none"] the response has no [daily] key, however
    many daily metrics there are; with ["day"] it holds the whole list of
    daily metrics; the totals are in the response in every mode. *)
Theorem breakdown_none_omits_daily (daily_metrics : list daily_metric)
    (totals : totals) (start_date end_date : option string) :
  daily (format_response daily_metrics totals "none" start_date end_date) = None /\
  daily (format_response daily_metrics totals "day" start_date end_date)
    = Some daily_metrics /\
  forall breakdown,
    resp_totals (format_response daily_metrics totals breakdown
                   start_date end_date) = totals.
Proof. done. Qed.

(** C2. [calculate_daily_metrics] never raises [ZeroDivisionError].  On a
    document with a series it returns a list in which every entry that
    follows an entry whose rate in the series is zero ([== 0], either
    sign) has [pct_change = None]: no quotient by zero is ever formed. *)
Theorem zero_rate_guard (rates_data : gmap string entry) :
  calculate_daily_metrics rates_data ≠ Raise ZeroDivisionError /\
  forall rates, rates_data !! "rates" = Some (Mapping rates) ->
    exists out, calculate_daily_metrics rates_data = Ok out /\
      forall (i : nat) m0 m c0,
        out !! i = Some m0 -> out !! S i = Some m ->
        rate_on rates (date m0) = Some c0 -> (c0 =? 0)%float = true ->
        pct_change m = None.
Proof.
  split.
  - destruct (rates_data !! "rates") as [[rates|text]|] eqn:E.
    + by rewrite (calculate_daily_metrics_chain _ rates E).
    + unfold calculate_daily_metrics. rewrite E. by repeat case_match.
    + by rewrite calculate_daily_metrics_no_rates.
  - intros rates H. eexists. split; [by apply calculate_daily_metrics_chain|].
    intros i m0 m c0 H0 H1 Hc0 Hz.
    apply emitted_entry in H1 as (c & _ & _ & m0' & c0' & H0' & Hc0' & ->).
    rewrite H0 in H0'. injection H0' as <-.
    rewrite Hc0 in Hc0'. injection Hc0' as <-.
    unfold change. by rewrite Hz.
Qed.

Lemma zero_rate_guard_witness :
  zero_then_nonzero !! "rates" = Some (Mapping zero_then_nonzero_series) /\
  exists out m, calculate_daily_metrics zero_then_nonzero = Ok out /\
    out !! 1%nat = Some m /\ date m = "2025-01-03" /\ pct_change m = None.
Proof.
  split; [reflexivity|].
  destruct (proj2 (zero_rate_guard zero_then_nonzero)
              zero_then_nonzero_series eq_refl) as (out & Hout & Hguard).
  assert (out =
    [ {| date := "2025-01-01"; rate := 0%float; pct_change := None |};
      {| date := "2025-01-03"; rate := 1.25%float; pct_change := None |} ])
    as Heq.
  { assert (Ok out = Ok
      [ {| date := "2025-01-01"; rate := 0%float; pct_change := None |};
        {| date := "2025-01-03"; rate := 1.25%float; pct_change := None |} ])
      as [= ->]; [|done].
    rewrite <- Hout. vm_compute. reflexivity. }
  exists out. eexists. split; [done|]. split; [by rewrite Heq|]. split; [done|].
  eapply (Hguard 0%nat _ _ 0%float); rewrite ?Heq; reflexivity.
Defined.

(** A remark on what the guard tests: the rate as read from the series,
    before rounding.  A rate that is not zero is a divisor like any
    other, also when the entry emitted for it shows [0.0]. *)
Remark guard_tests_unrounded_rate :
  calculate_daily_metrics tiny_then_one =
  Ok [ {| date := "2025-01-01"; rate := 0%float; pct_change := None |};
       {| date := "2025-01-02"; rate := 1%float;
          pct_change := Some (round (((1 - 4e-7) / 4e-7) * 100)%float 4) |} ].
Proof. by vm_compute. Qed.

(** The code's extraction is the quote-currency rate of the
    specification. *)
Lemma rate_on_usd_rate (rates : gmap string date_rates) (d : string) :
  rate_on rates d = usd_rate rates d.
Proof.
  unfold rate_on, usd_rate.
  destruct (rates !! d) as [[currencies|[x|]]|]; simpl; try done.
  by destruct (currencies !! "USD") as [[x|]|].
Qed.

(** C6. On a document with a series, [calculate_daily_metrics] returns a
    list [out] such that:
    - the same list results whatever the order in which the keys of the
      series are enumerated before sorting;
    - [out] has at most as many entries as the series has dates;
    - the dates of [out] are strictly ascending as strings, and strictly
      ascending in the calendar when the keys are ISO dates;
    - a date is in [out] exactly when it has a USD rate: a bare number,
      or a number under ["USD"] in its bundle.  A date whose bundle has no
      ["USD"] entry is not in [out], raises no error, and taking it out
      of the series leaves [out] as it is;
    - the first entry has no percentage change;
    - every later entry has the change from the unrounded USD rate [c0]
      of the entry just before it to its own [c]:
      [((c - c0) / c0) * 100] rounded to 4 places, or none when [c0] is
      zero. *)
Theorem daily_metrics_ascending_chain (rates_data : gmap string entry)
    (rates : gmap string date_rates) :
  rates_data !! "rates" = Some (Mapping rates) ->
  exists out, calculate_daily_metrics rates_data = Ok out /\
    (forall ks, ks ≡ₚ keys rates ->
       daily_loop rates (sorted ks) [] None = Ok out) /\
    (length out <= size rates)%nat /\
    StronglySorted str_lt (date <$> out) /\
    (Forall (fun d => is_Some (parse_iso d)) (keys rates) ->
       StronglySorted calendar_lt (date <$> out)) /\
    (forall d, d ∈ (date <$> out) <-> is_Some (usd_rate rates d)) /\
    (forall d currencies,
       rates !! d = Some (Bundle currencies) ->
       currencies !! "USD" = None -> d ∉ (date <$> out)) /\
    (forall d currencies x,
       rates !! d = Some (Bundle currencies) ->
       currencies !! "USD" = Some (Some x) -> d ∈ (date <$> out)) /\
    (forall d x, rates !! d = Some (Direct (Some x)) -> d ∈ (date <$> out)) /\
    (forall k, usd_rate rates k = None ->
       calculate_daily_metrics
         (<["rates" := Mapping (delete k rates)]> rates_data) = Ok out) /\
    (forall m, out !! 0%nat = Some m -> pct_change m = None) /\
    (forall (i : nat) m0 m, out !! i = Some m0 -> out !! S i = Some m ->
       exists c0 c,
         usd_rate rates (date m0) = Some c0 /\
         usd_rate rates (date m) = Some c /\
         pct_change m =
           if (c0 =? 0)%float then None
           else Some (round (((c - c0) / c0) * 100)%float 4)).
Proof.
  intros H. exists (chain None (dated_rates rates)).
  pose proof (calculate_daily_metrics_chain _ _ H) as Hout.
  assert (forall d, d ∈ (dated_rates rates).*1 <-> is_Some (usd_rate rates d))
    as Hmem.
  { intros d. rewrite <- rate_on_usd_rate. split.
    - intros [[d' c] [-> Hc%elem_of_dated_rates]]%list_elem_of_fmap. eauto.
    - intros [c Hc]. apply list_elem_of_fmap. exists (d, c).
      split; [done|]. by apply elem_of_dated_rates. }
  split; [done|]. rewrite chain_dates.
  split; [|split; [|split; [|split; [|split; [|split; [|split;
    [|split; [|split; [|split]]]]]]]]].
  - intros ks Hks. rewrite (sorted_unique ks (keys rates) Hks).
    unfold calculate_daily_metrics in Hout. rewrite H in Hout.
    rewrite bool_decide_eq_false_2 in Hout by (by intros ->).
    by rewrite bool_decide_eq_false_2 in Hout.
  - rewrite length_chain. apply length_dated_rates.
  - apply dated_rates_ascending.
  - intros Hiso. apply ascending_calendar; [|apply dated_rates_ascending].
    apply Forall_forall. intros d Hd.
    eapply elem_of_sublist in Hd; [|apply omap_dates_sublist].
    rewrite sorted_Permutation in Hd.
    rewrite Forall_forall in Hiso. auto.
  - exact Hmem.
  - intros d currencies Hd Hnone [x Hx]%Hmem.
    unfold usd_rate in Hx. rewrite Hd, Hnone in Hx. discriminate Hx.
  - intros d currencies x Hd Hx. apply Hmem.
    unfold usd_rate. rewrite Hd, Hx. by eexists.
  - intros d x Hd. apply Hmem. unfold usd_rate. rewrite Hd. by eexists.
  - intros k Hk. rewrite <- rate_on_usd_rate in Hk.
    rewrite (calculate_daily_metrics_chain _ (delete k rates))
      by apply lookup_insert_eq.
    by rewrite dated_rates_delete.
  - intros m Hm. by apply emitted_entry in Hm as (? & _ & _ & ?).
  - intros i m0 m H0 H1.
    apply emitted_entry in H1 as (c & Hc & _ & m0' & c0 & H0' & Hc0 & Hp).
    rewrite H0 in H0'. injection H0' as <-.
    rewrite rate_on_usd_rate in Hc, Hc0. by exists c0, c.
Qed.

Lemma daily_metrics_ascending_chain_witness :
  gapped !! "rates" = Some (Mapping gapped_series) /\
  exists out, calculate_daily_metrics gapped = Ok out /\
    out =
      [ {| date := "2025-01-01"; rate := 1.1%float; pct_change := None |};
        {| date := "2025-01-04"; rate := 1.21%float;
           pct_change := Some 10%float |} ] /\
    "2025-01-01" ∈ (date <$> out) /\
    ("2025-01-02" ∉ (date <$> out)) /\
    "2025-01-04" ∈ (date <$> out) /\
    StronglySorted calendar_lt (date <$> out) /\
    (exists m, out !! 1%nat = Some m /\
       pct_change m = Some (round (((1.21 - 1.10) / 1.10) * 100)%float 4)).
Proof.
  split; [reflexivity|].
  destruct (daily_metrics_ascending_chain gapped gapped_series eq_refl)
    as (out & Hout & _ & _ & _ & Hcal & _ & Hskip & Hbundle & _ & _ & _ & Hpct).
  assert (out =
      [ {| date := "2025-01-01"; rate := 1.1%float; pct_change := None |};
        {| date := "2025-01-04"; rate := 1.21%float;
           pct_change := Some 10%float |} ]) as Heq.
  { assert (Ok out = Ok
      [ {| date := "2025-01-01"; rate := 1.1%float; pct_change := None |};
        {| date := "2025-01-04"; rate := 1.21%float;
           pct_change := Some 10%float |} ]) as [= ->]; [|done].
    rewrite <- Hout. vm_compute. reflexivity. }
  exists out. split; [done|]. split; [exact Heq|].
  split; [|split; [|split; [|split]]].
  - apply (Hbundle "2025-01-01"
             (<["GBP" := Some 0.84%float]> {[ "USD" := Some 1.10%float ]})
             1.10%float); reflexivity.
  - apply (Hskip "2025-01-02" {[ "GBP" := Some 0.85%float ]}); reflexivity.
  - apply (Hbundle "2025-01-04" {[ "USD" := Some 1.21%float ]} 1.21%float);
      reflexivity.
  - apply Hcal. vm_compute. repeat constructor; by eexists.
  - destruct (Hpct 0%nat
        {| date := "2025-01-01"; rate := 1.1%float; pct_change := None |}
        {| date := "2025-01-04"; rate := 1.21%float;
           pct_change := Some 10%float |})
      as (c0 & c & Hc0 & Hc & Hp); [by rewrite Heq..|].
    vm_compute in Hc0. injection Hc0 as <-.
    vm_compute in Hc. injection Hc as <-.
    eexists. split; [by rewrite Heq|]. exact Hp.
Defined.

(** C7. Rounding happens once, when an entry is emitted: on a document
    with a series, every entry of the output has the rate [c] of its date
    rounded to 6 places, and a change that is computed from the unrounded
    rates [c0] and [c] and then rounded to 4 places.  On the two-day
    series [{"2025-01-01": 1.10, "2025-01-02": 1.21}], bare or with each
    rate under ["USD"], the output is
    [[(2025-01-01, 1.1, None); (2025-01-02, 1.21, 10.0)]], and the totals
    of that output are [1.1], [1.21], [10.0] and [1.155]. *)
Theorem rounding_once_at_emission :
  (forall (rates_data : gmap string entry) rates,
     rates_data !! "rates" = Some (Mapping rates) ->
     exists out, calculate_daily_metrics rates_data = Ok out /\
       forall (i : nat) m, out !! i = Some m ->
         exists c, rate_on rates (date m) = Some c /\ rate m = round c 6 /\
           match i with
           | O => pct_change m = None
           | S j => exists m0 c0,
               out !! j = Some m0 /\ rate_on rates (date m0) = Some c0 /\
               pct_change m =
                 (fun p => round p 4) <$>
                   (if (c0 =? 0)%float then None
                    else Some (((c - c0) / c0) * 100)%float)
           end) /\
  calculate_daily_metrics two_day =
    Ok [ {| date := "2025-01-01"; rate := 1.1%float; pct_change := None |};
         {| date := "2025-01-02"; rate := 1.21%float;
            pct_change := Some 10%float |} ] /\
  calculate_daily_metrics two_day_bundled = calculate_daily_metrics two_day /\
  calculate_totals
    [ {| date := "2025-01-01"; rate := 1.1%float; pct_change := None |};
      {| date := "2025-01-02"; rate := 1.21%float;
         pct_change := Some 10%float |} ] =
    Ok {| start_rate := Some 1.1%float; end_rate := Some 1.21%float;
          total_pct_change := Some 10%float;
          mean_rate := Some 1.155%float |}.
Proof.
  split; [|split; [|split]]; [|by vm_compute..].
  intros rates_data rates H. eexists.
  split; [by apply calculate_daily_metrics_chain|].
  intros i m Hm.
  apply emitted_entry in Hm as (c & Hc & Hr & Hp).
  exists c. split; [done|]. split; [done|].
  destruct i as [|j]; [done|].
  destruct Hp as (m0 & c0 & H0 & Hc0 & ->).
  exists m0, c0. split; [done|]. split; [done|].
  unfold change. by destruct (c0 =? 0)%float.
Qed.

Lemma rounding_once_at_emission_witness :
  two_day !! "rates" = Some (Mapping two_day_series) /\
  exists out m, calculate_daily_metrics two_day = Ok out /\
    out !! 1%nat = Some m /\
    rate m = round 1.21 6 /\
    pct_change m = Some (round (((1.21 - 1.10) / 1.10) * 100)%float 4).
Proof.
  split; [reflexivity|].
  destruct (proj1 rounding_once_at_emission two_day two_day_series eq_refl)
    as (out & Hout & Hentry).
  pose proof (proj1 (proj2 rounding_once_at_emission)) as Hval.
  rewrite Hout in Hval. injection Hval as ->.
  eexists _, _. split; [done|]. split; [reflexivity|].
  destruct (Hentry 1%nat _ eq_refl) as (c & Hc & Hr & m0 & c0 & H0 & Hc0 & Hp).
  injection H0 as <-.
  vm_compute in Hc. injection Hc as <-.
  vm_compute in Hc0. injection Hc0 as <-.
  split; [exact Hr|]. rewrite Hp. reflexivity.
Defined.

(** ** The cache *)

Section cache.
Context {V : Type}.
Implicit Types (c : FXCache.t V) (key : string) (now timestamp : Z) (v : V).

Lemma get_fresh c key now timestamp v :
  FXCache.cache c !! key = Some (timestamp, v) ->
  now - timestamp < FXCache.ttl c ->
  FXCache.get now key c = (Some v, c).
Proof.
  intros H Hage. unfold FXCache.get. rewrite H.
  by rewrite (proj2 (Z.ltb_lt _ _) Hage).
Qed.

Lemma get_expired c key now timestamp v :
  FXCache.cache c !! key = Some (timestamp, v) ->
  FXCache.ttl c <= now - timestamp ->
  FXCache.get now key c =
  (None, {| FXCache.cache := delete key (FXCache.cache c);
            FXCache.ttl := FXCache.ttl c |}).
Proof.
  intros H Hage. unfold FXCache.get. rewrite H.
  by rewrite (proj2 (Z.ltb_ge _ _) Hage).
Qed.

Lemma get_absent c key now :
  FXCache.cache c !! key = None -> FXCache.get now key c = (None, c).
Proof. intros H. unfold FXCache.get. by rewrite H. Qed.

(** A lookup touches no other key and never changes the TTL. *)
Lemma get_other_key c key key' now :
  key' ≠ key ->
  FXCache.cache (FXCache.get now key c).2 !! key' = FXCache.cache c !! key'.
Proof.
  intros Hne. unfold FXCache.get.
  destruct (FXCache.cache c !! key) as [[timestamp v]|]; [|done].
  destruct (_ <? _); [done|]. simpl. by rewrite lookup_delete_ne.
Qed.

Lemma get_ttl c key now : FXCache.ttl (FXCache.get now key c).2 = FXCache.ttl c.
Proof.
  unfold FXCache.get.
  destruct (FXCache.cache c !! key) as [[timestamp v]|]; [|done].
  by destruct (_ <? _).
Qed.

(** What a lookup returns it found under the key, and left there. *)
Lemma get_Some c key now v :
  (FXCache.get now key c).1 = Some v ->
  exists timestamp,
    FXCache.cache c !! key = Some (timestamp, v) /\
    now - timestamp < FXCache.ttl c /\
    (FXCache.get now key c).2 = c.
Proof.
  unfold FXCache.get.
  destruct (FXCache.cache c !! key) as [[timestamp v']|]; [|done].
  destruct (_ <? _) eqn:E; [|done]. simpl. intros [= ->].
  exists timestamp. by apply Z.ltb_lt in E.
Qed.

(** A lookup only ever removes: what is in the cache after it was there
    before. *)
Lemma get_subseteq c key now :
  FXCache.cache (FXCache.get now key c).2 ⊆ FXCache.cache c.
Proof.
  unfold FXCache.get.
  destruct (FXCache.cache c !! key) as [[timestamp v]|]; [|done].
  destruct (_ <? _); [done|]. simpl. apply delete_subseteq.
Qed.

End cache.

(** C4. While [now - timestamp < ttl] a lookup returns the stored value
    and leaves the cache as it is; once [ttl <= now - timestamp] it
    returns nothing and deletes the entry.  Eviction is lazy: a lookup
    leaves every other key alone, expired or not.  Hence a client call
    that finds its entry expired sends a new request upstream, and what it
    returns comes from that exchange (or the fallback), not from the
    expired entry. *)
Theorem ttl_expiry {V : Type} (truthy : V -> bool) (c : FXCache.t V)
    (key : string) (now timestamp : Z) (v : V) :
  FXCache.cache c !! key = Some (timestamp, v) ->
  (now - timestamp < FXCache.ttl c -> FXCache.get now key c = (Some v, c)) /\
  (FXCache.ttl c <= now - timestamp ->
     FXCache.get now key c =
       (None, {| FXCache.cache := delete key (FXCache.cache c);
                 FXCache.ttl := FXCache.ttl c |}) /\
     forall now', (FXCache.get now' key (FXCache.get now key c).2).1 = None) /\
  (forall key', key' ≠ key ->
     FXCache.cache (FXCache.get now key c).2 !! key' = FXCache.cache c !! key') /\
  (forall (w : FXClient.world V) start_date end_date base symbols sent,
     key = FXClient.range_key start_date end_date base symbols ->
     now = FXClient.now_get w ->
     FXCache.ttl c <= now - timestamp ->
     let '(r, self') :=
       FXClient.get_range truthy w start_date end_date base symbols
         {| FXClient.cache := c; FXClient.sent := sent |} in
     FXClient.sent self' =
       sent ++ [FXClient.range_request start_date end_date base symbols] /\
     r = match FXClient.exchange w with
         | Ok data => Ok data
         | Raise _ => FXClient._load_fallback w
         end).
Proof.
  intros H. split; [|split; [|split]].
  - by apply get_fresh.
  - intros Hage. split; [by eapply get_expired|].
    intros now'. rewrite (get_expired _ _ _ _ _ H Hage). simpl.
    rewrite get_absent; [done|]. simpl. apply lookup_delete_eq.
  - intros key' Hne. by apply get_other_key.
  - intros w start_date end_date base symbols sent -> -> Hage.
    unfold FXClient.get_range. simpl.
    rewrite (get_expired _ _ _ _ _ H Hage).
    by destruct (FXClient.exchange w).
Qed.

Lemma ttl_expiry_witness :
  let key := FXClient.range_key "2025-01-01" "2025-01-02" "EUR" "USD" in
  let c := FXClient.cache client_with_old_entry in
  FXCache.cache c !! key = Some (0, two_day) /\
  FXCache.get 299999999 key c = (Some two_day, c) /\
  (FXCache.get 300000000 key c).1 = None /\
  length (FXClient.sent
    (FXClient.get_range Main.truthy (upstream_up 300000000 no_usd)
       "2025-01-01" "2025-01-02" "EUR" "USD" client_with_old_entry).2) = 1%nat.
Proof.
  intros key c.
  assert (FXCache.cache c !! key = Some (0, two_day)) as H
    by apply lookup_insert_eq.
  split; [exact H|].
  destruct (ttl_expiry Main.truthy c key 299999999 0 two_day H)
    as (Hfresh & _ & _ & _).
  destruct (ttl_expiry Main.truthy c key 300000000 0 two_day H)
    as (_ & Hexpired & _ & Hclient).
  split; [by apply Hfresh|].
  split; [by rewrite (proj1 (Hexpired ltac:(done)))|].
  specialize (Hclient (upstream_up 300000000 no_usd)
                "2025-01-01" "2025-01-02" "EUR" "USD" [] eq_refl eq_refl
                ltac:(done)).
  revert Hclient.
  change {| FXClient.cache := c; FXClient.sent := [] |}
    with client_with_old_entry.
  destruct (FXClient.get_range _ _ _ _ _ _ _) as [r self']. simpl.
  by intros [-> _].
Defined.

(** ** The client *)

Section client.
Context {V : Type} (truthy : V -> bool).
Implicit Types (w : FXClient.world V) (self : FXClient.t V).
Implicit Types (c : FXCache.t V) (key : string).

Lemma get_range_miss w start_date end_date base symbols self :
  let key := FXClient.range_key start_date end_date base symbols in
  let looked := FXCache.get (FXClient.now_get w) key (FXClient.cache self) in
  let sent' := FXClient.sent self ++
               [FXClient.range_request start_date end_date base symbols] in
  nothing_usable truthy (FXClient.now_get w) key (FXClient.cache self) ->
  FXClient.get_range truthy w start_date end_date base symbols self =
  match FXClient.exchange w with
  | Ok data =>
      (Ok data,
       {| FXClient.cache := FXCache.set (FXClient.now_set w) key data looked.2;
          FXClient.sent := sent' |})
  | Raise _ =>
      (FXClient._load_fallback w,
       {| FXClient.cache := looked.2; FXClient.sent := sent' |})
  end.
Proof.
  intros key looked sent' Hmiss. unfold FXClient.get_range.
  fold key. unfold nothing_usable in Hmiss. fold looked in Hmiss |- *.
  destruct looked as [[v|] c]; simpl in *; [|done].
  by rewrite (Hmiss v eq_refl).
Qed.

Lemma get_latest_miss w base symbols self :
  let key := FXClient.latest_key base symbols in
  let looked := FXCache.get (FXClient.now_get w) key (FXClient.cache self) in
  let sent' := FXClient.sent self ++ [FXClient.latest_request base symbols] in
  nothing_usable truthy (FXClient.now_get w) key (FXClient.cache self) ->
  FXClient.get_latest truthy w base symbols self =
  match FXClient.exchange w with
  | Ok data =>
      (Ok data,
       {| FXClient.cache := FXCache.set (FXClient.now_set w) key data looked.2;
          FXClient.sent := sent' |})
  | Raise _ =>
      (FXClient._load_fallback w,
       {| FXClient.cache := looked.2; FXClient.sent := sent' |})
  end.
Proof.
  intros key looked sent' Hmiss. unfold FXClient.get_latest.
  fold key. unfold nothing_usable in Hmiss. fold looked in Hmiss |- *.
  destruct looked as [[v|] c]; simpl in *; [|done].
  by rewrite (Hmiss v eq_refl).
Qed.

Lemma get_range_hit w start_date end_date base symbols self v :
  let key := FXClient.range_key start_date end_date base symbols in
  let looked := FXCache.get (FXClient.now_get w) key (FXClient.cache self) in
  looked.1 = Some v -> truthy v = true ->
  FXClient.get_range truthy w start_date end_date base symbols self =
  (Ok v, {| FXClient.cache := looked.2; FXClient.sent := FXClient.sent self |}).
Proof.
  intros key looked Hv Ht. unfold FXClient.get_range. fold key. fold looked.
  destruct looked as [cached c]; simpl in *. subst cached. by rewrite Ht.
Qed.

Lemma _load_fallback_cases w :
  match FXClient.fallback_file w with
  | Ok snapshot => FXClient._load_fallback w = Ok snapshot
  | Raise _ => exists msg, FXClient._load_fallback w = Raise (ValueError msg)
  end.
Proof.
  unfold FXClient._load_fallback.
  destruct (FXClient.fallback_file w); simpl; eauto.
Qed.

(** Once a lookup gave nothing usable, a later lookup of the cache it
    left gives nothing usable either. *)
Lemma nothing_usable_again (now now' : Z) key c :
  nothing_usable truthy now key c ->
  nothing_usable truthy now' key (FXCache.get now key c).2.
Proof.
  intros Hmiss v Hv.
  apply get_Some in Hv as (timestamp & Hin & _ & _).
  pose proof (get_subseteq c key now) as Hsub.
  pose proof (lookup_weaken _ _ _ _ Hin Hsub) as Hc.
  apply Hmiss. unfold FXCache.get in Hin |- *. rewrite Hc in Hin |- *.
  destruct (_ <? _); [done|].
  simpl in Hin. by rewrite lookup_delete_eq in Hin.
Qed.

End client.

(** C5. On a cache miss with an upstream failure of any kind, [get_range]
    and [get_latest] send exactly one request (no retry), and what they
    return depends on the fallback file alone: its contents when it
    loads, a [ValueError] when it does not.  The upstream exception is
    not raised. *)
Theorem fallback_on_upstream_failure {V : Type} (truthy : V -> bool)
    (w : FXClient.world V) (self : FXClient.t V) (e : exn) :
  FXClient.exchange w = Raise e ->
  (forall start_date end_date base symbols,
     nothing_usable truthy (FXClient.now_get w)
       (FXClient.range_key start_date end_date base symbols)
       (FXClient.cache self) ->
     let '(r, self') :=
       FXClient.get_range truthy w start_date end_date base symbols self in
     FXClient.sent self' =
       FXClient.sent self ++
       [FXClient.range_request start_date end_date base symbols] /\
     match FXClient.fallback_file w with
     | Ok snapshot => r = Ok snapshot
     | Raise _ => exists msg, r = Raise (ValueError msg)
     end) /\
  (forall base symbols,
     nothing_usable truthy (FXClient.now_get w)
       (FXClient.latest_key base symbols) (FXClient.cache self) ->
     let '(r, self') := FXClient.get_latest truthy w base symbols self in
     FXClient.sent self' =
       FXClient.sent self ++ [FXClient.latest_request base symbols] /\
     match FXClient.fallback_file w with
     | Ok snapshot => r = Ok snapshot
     | Raise _ => exists msg, r = Raise (ValueError msg)
     end).
Proof.
  intros He. split.
  - intros start_date end_date base symbols Hmiss.
    rewrite get_range_miss by done. rewrite He.
    split; [done|]. apply _load_fallback_cases.
  - intros base symbols Hmiss.
    rewrite get_latest_miss by done. rewrite He.
    split; [done|]. apply _load_fallback_cases.
Qed.

Lemma fallback_on_upstream_failure_witness :
  FXClient.exchange (upstream_down 0) = Raise (HTTPError (HTTPStatusError 500)) /\
  FXClient.exchange (all_down 0) = Raise (HTTPError (HTTPStatusError 500)) /\
  nothing_usable Main.truthy 0
    (FXClient.range_key "2025-01-01" "2025-01-02" "EUR" "USD")
    (FXClient.cache fresh_client) /\
  nothing_usable Main.truthy 0 (FXClient.latest_key "EUR" "USD")
    (FXClient.cache fresh_client) /\
  (FXClient.get_range Main.truthy (upstream_down 0)
     "2025-01-01" "2025-01-02" "EUR" "USD" fresh_client).1 = Ok two_day /\
  (exists msg,
     (FXClient.get_latest Main.truthy (all_down 0) "EUR" "USD" fresh_client).1
     = Raise (ValueError msg)).
Proof.
  assert (forall key, nothing_usable Main.truthy 0 key
                        (FXClient.cache fresh_client)) as Hmiss.
  { intros key v Hv. unfold FXCache.get in Hv. simpl in Hv.
    by rewrite lookup_empty in Hv. }
  split; [reflexivity|]. split; [reflexivity|].
  split; [apply Hmiss|]. split; [apply Hmiss|]. split.
  - pose proof (proj1 (fallback_on_upstream_failure Main.truthy
        (upstream_down 0) fresh_client _ eq_refl)
        "2025-01-01" "2025-01-02" "EUR" "USD" (Hmiss _)) as H.
    destruct (FXClient.get_range _ _ _ _ _ _ _) as [r self'].
    simpl in *. by destruct H as [_ ->].
  - pose proof (proj2 (fallback_on_upstream_failure Main.truthy
        (all_down 0) fresh_client _ eq_refl) "EUR" "USD" (Hmiss _)) as H.
    destruct (FXClient.get_latest _ _ _ _ _) as [r self'].
    simpl in *. by destruct H as [_ H].
Defined.

(** C10, as stated, fails: a call that finds an expired entry under its
    key, then fails upstream and is served from the fallback file, has
    deleted that entry; the cache is not what it was. *)
Lemma fallback_call_evicts_expired_entry :
  let key := FXClient.range_key "2025-01-01" "2025-01-02" "EUR" "USD" in
  let call :=
    FXClient.get_range Main.truthy (upstream_down 300000000)
      "2025-01-01" "2025-01-02" "EUR" "USD" client_with_old_entry in
  call.1 = Ok two_day /\
  FXCache.cache (FXClient.cache client_with_old_entry) !! key
    = Some (0, two_day) /\
  FXCache.cache (FXClient.cache call.2) !! key = None /\
  FXClient.cache call.2 ≠ FXClient.cache client_with_old_entry.
Proof.
  intros key call.
  assert (FXCache.cache (FXClient.cache client_with_old_entry) !! key
          = Some (0, two_day)) as Hold by apply lookup_insert_eq.
  assert (call =
    (Ok two_day,
     {| FXClient.cache :=
          {| FXCache.cache :=
               delete key (FXCache.cache (FXClient.cache client_with_old_entry));
             FXCache.ttl := 300000000 |};
        FXClient.sent :=
          [FXClient.range_request "2025-01-01" "2025-01-02" "EUR" "USD"] |}))
    as ->.
  { unfold call, FXClient.get_range. fold key.
    change (FXClient.now_get (upstream_down 300000000)) with 300000000.
    by rewrite (get_expired _ key 300000000 0 two_day Hold). }
  cbn [fst snd FXClient.cache]. split; [done|]. split; [done|].
  split; [apply lookup_delete_eq|].
  intros Heq.
  assert (FXCache.cache (FXClient.cache client_with_old_entry) !! key = None)
    as Hnone by (rewrite <- Heq; apply lookup_delete_eq).
  rewrite Hold in Hnone. discriminate Hnone.
Qed.

(** C10, amended.  A call served from the fallback file stores nothing:
    it leaves the cache as its own lookup left it, that is, as it was but
    for an expired entry under the request's key, which the lookup
    deleted.  Whatever the next call with the same parameters meets, it
    sends a request upstream. *)
Theorem fallback_stores_nothing {V : Type} (truthy : V -> bool)
    (w : FXClient.world V) (self : FXClient.t V) (e : exn) :
  FXClient.exchange w = Raise e ->
  (forall start_date end_date base symbols,
     let key := FXClient.range_key start_date end_date base symbols in
     nothing_usable truthy (FXClient.now_get w) key (FXClient.cache self) ->
     let self' :=
       (FXClient.get_range truthy w start_date end_date base symbols self).2 in
     FXClient.cache self' =
       (FXCache.get (FXClient.now_get w) key (FXClient.cache self)).2 /\
     FXCache.cache (FXClient.cache self') ⊆ FXCache.cache (FXClient.cache self) /\
     (forall key', key' ≠ key ->
        FXCache.cache (FXClient.cache self') !! key'
        = FXCache.cache (FXClient.cache self) !! key') /\
     ((forall timestamp v,
         FXCache.cache (FXClient.cache self) !! key = Some (timestamp, v) ->
         FXClient.now_get w - timestamp < FXCache.ttl (FXClient.cache self)) ->
      FXClient.cache self' = FXClient.cache self) /\
     forall w',
       FXClient.sent
         (FXClient.get_range truthy w' start_date end_date base symbols self').2
       = FXClient.sent self' ++
         [FXClient.range_request start_date end_date base symbols]) /\
  (forall base symbols,
     let key := FXClient.latest_key base symbols in
     nothing_usable truthy (FXClient.now_get w) key (FXClient.cache self) ->
     let self' := (FXClient.get_latest truthy w base symbols self).2 in
     FXClient.cache self' =
       (FXCache.get (FXClient.now_get w) key (FXClient.cache self)).2 /\
     FXCache.cache (FXClient.cache self') ⊆ FXCache.cache (FXClient.cache self) /\
     (forall key', key' ≠ key ->
        FXCache.cache (FXClient.cache self') !! key'
        = FXCache.cache (FXClient.cache self) !! key') /\
     ((forall timestamp v,
         FXCache.cache (FXClient.cache self) !! key = Some (timestamp, v) ->
         FXClient.now_get w - timestamp < FXCache.ttl (FXClient.cache self)) ->
      FXClient.cache self' = FXClient.cache self) /\
     forall w',
       FXClient.sent (FXClient.get_latest truthy w' base symbols self').2
       = FXClient.sent self' ++ [FXClient.latest_request base symbols]).
Proof.
  intros He.
  assert (forall key,
    (forall timestamp v,
       FXCache.cache (FXClient.cache self) !! key = Some (timestamp, v) ->
       FXClient.now_get w - timestamp < FXCache.ttl (FXClient.cache self)) ->
    (FXCache.get (FXClient.now_get w) key (FXClient.cache self)).2
    = FXClient.cache self) as Hkeep.
  { intros key Hfresh. unfold FXCache.get.
    destruct (FXCache.cache (FXClient.cache self) !! key)
      as [[timestamp v]|] eqn:E; [|done].
    by rewrite (proj2 (Z.ltb_lt _ _) (Hfresh _ _ eq_refl)). }
  split.
  - intros start_date end_date base symbols key Hmiss self'.
    assert (FXClient.cache self' =
      (FXCache.get (FXClient.now_get w) key (FXClient.cache self)).2) as Hc.
    { unfold self'. rewrite get_range_miss by done. by rewrite He. }
    split; [done|]. rewrite Hc.
    split; [apply get_subseteq|].
    split; [intros key' Hne; by apply get_other_key|].
    split; [apply Hkeep|].
    intros w'. rewrite get_range_miss.
    + by destruct (FXClient.exchange w').
    + rewrite Hc. by apply nothing_usable_again.
  - intros base symbols key Hmiss self'.
    assert (FXClient.cache self' =
      (FXCache.get (FXClient.now_get w) key (FXClient.cache self)).2) as Hc.
    { unfold self'. rewrite get_latest_miss by done. by rewrite He. }
    split; [done|]. rewrite Hc.
    split; [apply get_subseteq|].
    split; [intros key' Hne; by apply get_other_key|].
    split; [apply Hkeep|].
    intros w'. rewrite get_latest_miss.
    + by destruct (FXClient.exchange w').
    + rewrite Hc. by apply nothing_usable_again.
Qed.

Lemma fallback_stores_nothing_witness :
  FXClient.exchange (upstream_down 300000000)
    = Raise (HTTPError (HTTPStatusError 500)) /\
  nothing_usable Main.truthy 300000000
    (FXClient.range_key "2025-01-01" "2025-01-02" "EUR" "USD")
    (FXClient.cache client_with_old_entry) /\
  forall w',
    length (FXClient.sent
      (FXClient.get_range Main.truthy w' "2025-01-01" "2025-01-02" "EUR" "USD"
         (FXClient.get_range Main.truthy (upstream_down 300000000)
            "2025-01-01" "2025-01-02" "EUR" "USD" client_with_old_entry).2).2)
    = 2%nat.
Proof.
  assert (nothing_usable Main.truthy 300000000
    (FXClient.range_key "2025-01-01" "2025-01-02" "EUR" "USD")
    (FXClient.cache client_with_old_entry)) as Hmiss.
  { intros v Hv.
    rewrite (get_expired _ _ 300000000 0 two_day) in Hv;
      [done|apply lookup_insert_eq|done]. }
  split; [reflexivity|]. split; [exact Hmiss|]. intros w'.
  destruct (proj1 (fallback_stores_nothing Main.truthy
      (upstream_down 300000000) client_with_old_entry _ eq_refl)
      "2025-01-01" "2025-01-02" "EUR" "USD" Hmiss) as (_ & _ & _ & _ & Hnext).
  rewrite Hnext, length_app.
  rewrite get_range_miss by exact Hmiss. reflexivity.
Defined.

(** C3, as stated, fails: when the provider answers the first call with
    an error, that call is served from the fallback file and caches
    nothing, so an identical call one second later goes upstream again:
    two requests, not one. *)
Lemma two_calls_two_requests_after_upstream_error :
  let first :=
    FXClient.get_range Main.truthy (upstream_down 0)
      "2025-01-01" "2025-01-02" "EUR" "USD" fresh_client in
  let second :=
    FXClient.get_range Main.truthy (upstream_up 1000000 two_day)
      "2025-01-01" "2025-01-02" "EUR" "USD" first.2 in
  1000000 - 0 < FXCache.ttl (FXClient.cache fresh_client) /\
  FXCache.cache (FXClient.cache first.2) = ∅ /\
  FXClient.sent second.2 =
    [ FXClient.range_request "2025-01-01" "2025-01-02" "EUR" "USD";
      FXClient.range_request "2025-01-01" "2025-01-02" "EUR" "USD" ] /\
  length (FXClient.sent second.2) ≠ 1%nat.
Proof.
  intros first second.
  assert (first =
    (Ok two_day,
     {| FXClient.cache := FXClient.cache fresh_client;
        FXClient.sent :=
          [FXClient.range_request "2025-01-01" "2025-01-02" "EUR" "USD"] |}))
    as Hfirst.
  { unfold first, FXClient.get_range.
    rewrite get_absent by apply lookup_empty. reflexivity. }
  assert (FXClient.sent second.2 =
    [ FXClient.range_request "2025-01-01" "2025-01-02" "EUR" "USD";
      FXClient.range_request "2025-01-01" "2025-01-02" "EUR" "USD" ]) as Hsent.
  { unfold second. rewrite Hfirst. unfold FXClient.get_range.
    cbn [snd FXClient.cache].
    rewrite get_absent by apply lookup_empty. reflexivity. }
  split; [done|]. split; [by rewrite Hfirst|]. split; [done|].
  by rewrite Hsent.
Qed.

(** C3, amended.  When the first of two [get_range] calls with the same
    parameters misses the cache and the provider answers it successfully
    with a document that is true as a condition, and the second call's
    lookup is made less than the TTL after the first call stored that
    document, then one request is sent in all: the first call sends it,
    the second sends none and returns the document the first returned. *)
Theorem repeated_call_served_from_cache {V : Type} (truthy : V -> bool)
    (w1 w2 : FXClient.world V) (self : FXClient.t V)
    (start_date end_date base symbols : string) (data : V) :
  nothing_usable truthy (FXClient.now_get w1)
    (FXClient.range_key start_date end_date base symbols)
    (FXClient.cache self) ->
  FXClient.exchange w1 = Ok data ->
  truthy data = true ->
  FXClient.now_get w2 - FXClient.now_set w1 < FXCache.ttl (FXClient.cache self) ->
  let first :=
    FXClient.get_range truthy w1 start_date end_date base symbols self in
  let second :=
    FXClient.get_range truthy w2 start_date end_date base symbols first.2 in
  first.1 = Ok data /\ second.1 = Ok data /\
  FXClient.sent first.2 =
    FXClient.sent self ++
    [FXClient.range_request start_date end_date base symbols] /\
  FXClient.sent second.2 = FXClient.sent first.2.
Proof.
  intros Hmiss Hok Htrue Hage first second.
  set (key := FXClient.range_key start_date end_date base symbols) in *.
  set (c := (FXCache.get (FXClient.now_get w1) key (FXClient.cache self)).2).
  assert (first =
    (Ok data,
     {| FXClient.cache := FXCache.set (FXClient.now_set w1) key data c;
        FXClient.sent := FXClient.sent self ++
          [FXClient.range_request start_date end_date base symbols] |}))
    as Hfirst.
  { unfold first. rewrite get_range_miss by done. by rewrite Hok. }
  assert (FXCache.get (FXClient.now_get w2) key
            (FXCache.set (FXClient.now_set w1) key data c)
          = (Some data, FXCache.set (FXClient.now_set w1) key data c))
    as Hlook.
  { apply (get_fresh _ _ _ (FXClient.now_set w1)).
    - apply lookup_insert_eq.
    - simpl. unfold c. by rewrite get_ttl. }
  assert (second = (Ok data, first.2)) as Hsecond.
  { unfold second. rewrite Hfirst. cbn [snd].
    rewrite (get_range_hit _ _ _ _ _ _ _ data); cbn [FXClient.cache];
      fold key; rewrite ?Hlook; done. }
  rewrite Hsecond. by rewrite Hfirst.
Qed.

Lemma repeated_call_served_from_cache_witness :
  nothing_usable Main.truthy 0
    (FXClient.range_key "2025-01-01" "2025-01-02" "EUR" "USD")
    (FXClient.cache fresh_client) /\
  Main.truthy two_day = true /\
  1000000 - 500000 < FXCache.ttl (FXClient.cache fresh_client) /\
  let first :=
    FXClient.get_range Main.truthy (upstream_up 0 two_day)
      "2025-01-01" "2025-01-02" "EUR" "USD" fresh_client in
  let second :=
    FXClient.get_range Main.truthy (upstream_up 1000000 no_usd)
      "2025-01-01" "2025-01-02" "EUR" "USD" first.2 in
  second.1 = Ok two_day /\ length (FXClient.sent second.2) = 1%nat.
Proof.
  assert (nothing_usable Main.truthy 0
    (FXClient.range_key "2025-01-01" "2025-01-02" "EUR" "USD")
    (FXClient.cache fresh_client)) as Hmiss.
  { intros v Hv. unfold FXCache.get in Hv. simpl in Hv.
    by rewrite lookup_empty in Hv. }
  assert (Main.truthy two_day = true) as Htrue.
  { unfold Main.truthy. rewrite bool_decide_eq_false_2; [done|].
    intros Heq. apply (f_equal (fun m => m !! "rates")) in Heq.
    unfold two_day in Heq.
    rewrite lookup_singleton_eq, lookup_empty in Heq. discriminate Heq. }
  split; [exact Hmiss|]. split; [exact Htrue|]. split; [done|].
  intros first second.
  destruct (repeated_call_served_from_cache Main.truthy
              (upstream_up 0 two_day) (upstream_up 1000000 no_usd)
              fresh_client "2025-01-01" "2025-01-02" "EUR" "USD" two_day
              Hmiss eq_refl Htrue ltac:(done))
    as (_ & H2 & Hs1 & Hs2).
  split; [exact H2|].
  unfold second, first. by rewrite Hs2, Hs1.
Defined.

(** A remark on the condition [if cached:].  A document that is false as
    a condition (the empty object) is stored by a successful call, and a
    later lookup still finds it, but the client does not use it: the next
    call goes upstream again. *)
Remark empty_document_cached_but_not_served :
  let first :=
    FXClient.get_range Main.truthy (upstream_up 0 ∅)
      "2025-01-01" "2025-01-02" "EUR" "USD" fresh_client in
  let second :=
    FXClient.get_range Main.truthy (upstream_up 1000000 ∅)
      "2025-01-01" "2025-01-02" "EUR" "USD" first.2 in
  FXCache.cache (FXClient.cache first.2)
    !! FXClient.range_key "2025-01-01" "2025-01-02" "EUR" "USD"
    = Some (500000, ∅) /\
  length (FXClient.sent second.2) = 2%nat.
Proof.
  intros first second.
  assert (first =
    (Ok ∅,
     {| FXClient.cache :=
          FXCache.set 500000
            (FXClient.range_key "2025-01-01" "2025-01-02" "EUR" "USD") ∅
            (FXClient.cache fresh_client);
        FXClient.sent :=
          [FXClient.range_request "2025-01-01" "2025-01-02" "EUR" "USD"] |}))
    as Hfirst.
  { unfold first, FXClient.get_range.
    rewrite get_absent by apply lookup_empty. reflexivity. }
  split; [rewrite Hfirst; apply lookup_insert_eq|].
  unfold second. rewrite Hfirst. cbn [snd].
  rewrite get_range_miss.
  - reflexivity.
  - intros v Hv.
    apply get_Some in Hv as (timestamp & Hin & _).
    cbn [FXClient.cache FXCache.set FXCache.cache] in Hin.
    rewrite lookup_insert_eq in Hin. injection Hin as _ <-.
    unfold Main.truthy. by rewrite bool_decide_eq_true_2.
Qed.

(** ** The summary handler *)

Section summary.
Variable strptime : string -> string -> result Z.
Implicit Types (w : FXClient.world (gmap string entry)).
Implicit Types (fx_client : FXClient.t (gmap string entry)).

(** Past validation, the answer of the handler is the [try] block under
    its two [except] clauses. *)
Lemma get_summary_validated w start end_ breakdown fx_client :
  Main.validate_dates strptime start end_ = Ok tt ->
  Main.validate_breakdown breakdown = Ok tt ->
  Main.get_summary strptime w start end_ breakdown fx_client =
  let call := FXClient.get_range Main.truthy w start end_ "EUR" "USD"
                fx_client in
  (try_except
     (rates_data ← call.1; Main.summarise rates_data start end_ breakdown)
     Main.on_error,
   call.2).
Proof.
  intros Hd Hb. unfold Main.get_summary. rewrite Hd, Hb.
  by destruct (FXClient.get_range _ _ _ _ _ _ _).
Qed.

(** The fallback file failing too is reported as 503. *)
Lemma data_unavailable_is_503 w start end_ breakdown fx_client msg :
  Main.validate_dates strptime start end_ = Ok tt ->
  Main.validate_breakdown breakdown = Ok tt ->
  (FXClient.get_range Main.truthy w start end_ "EUR" "USD" fx_client).1
    = Raise (ValueError msg) ->
  (Main.get_summary strptime w start end_ breakdown fx_client).1
    = Raise (HTTPException 503 msg).
Proof.
  intros Hd Hb Hr. rewrite get_summary_validated by done.
  simpl. by rewrite Hr.
Qed.

(** A document whose ['rates'] is not a mapping is reported as 500. *)
Lemma malformed_document_is_500 w start end_ breakdown fx_client
    (rates_data : gmap string entry) text :
  Main.validate_dates strptime start end_ = Ok tt ->
  Main.validate_breakdown breakdown = Ok tt ->
  (FXClient.get_range Main.truthy w start end_ "EUR" "USD" fx_client).1
    = Ok rates_data ->
  rates_data !! "rates" = Some (Scalar text) ->
  (Main.get_summary strptime w start end_ breakdown fx_client).1
    = Raise (HTTPException 500 "Internal server error processing FX data").
Proof.
  intros Hd Hb Hr Hs. rewrite get_summary_validated by done.
  assert (calculate_daily_metrics rates_data = Raise AttributeError) as He.
  { unfold calculate_daily_metrics. rewrite Hs.
    rewrite bool_decide_eq_false_2 by (by intros ->).
    by rewrite bool_decide_eq_false_2. }
  cbn [fst]. rewrite Hr.
  change (rates_data0 ← Ok rates_data;
          Main.summarise rates_data0 start end_ breakdown)
    with (Main.summarise rates_data start end_ breakdown).
  unfold Main.summarise. by rewrite He.
Qed.
End summary.

(** C1 does not hold of the code.  When the fetched document yields no
    daily metric, the handler raises [HTTPException(404)] inside the
    [try] block; that exception is not a [ValueError], so the clause
    [except Exception] catches it and the request is answered with 500
    instead of 404. *)
Theorem empty_series_is_reported_as_500
    (strptime : string -> string -> result Z)
    (w : FXClient.world (gmap string entry)) (start end_ breakdown : string)
    (fx_client : FXClient.t (gmap string entry))
    (rates_data : gmap string entry) :
  Main.validate_dates strptime start end_ = Ok tt ->
  Main.validate_breakdown breakdown = Ok tt ->
  (FXClient.get_range Main.truthy w start end_ "EUR" "USD" fx_client).1
    = Ok rates_data ->
  calculate_daily_metrics rates_data = Ok [] ->
  Main.summarise rates_data start end_ breakdown =
    Raise (HTTPException 404
             "No rate data available for the specified date range") /\
  (Main.get_summary strptime w start end_ breakdown fx_client).1 =
    Raise (HTTPException 500 "Internal server error processing FX data").
Proof.
  intros Hd Hb Hr Hempty.
  assert (Main.summarise rates_data start end_ breakdown =
    Raise (HTTPException 404
             "No rate data available for the specified date range")) as H404.
  { unfold Main.summarise. by rewrite Hempty. }
  split; [done|].
  rewrite get_summary_validated by done.
  cbn [fst]. rewrite Hr.
  change (rates_data0 ← Ok rates_data;
          Main.summarise rates_data0 start end_ breakdown)
    with (Main.summarise rates_data start end_ breakdown).
  by rewrite H404.
Qed.

Lemma empty_series_is_reported_as_500_witness :
  Main.validate_dates strptime_iso "2025-01-01" "2025-01-02" = Ok tt /\
  Main.validate_breakdown "day" = Ok tt /\
  (FXClient.get_range Main.truthy (upstream_up 0 no_usd)
     "2025-01-01" "2025-01-02" "EUR" "USD" fresh_client).1 = Ok no_usd /\
  calculate_daily_metrics no_usd = Ok [] /\
  (Main.get_summary strptime_iso (upstream_up 0 no_usd)
     "2025-01-01" "2025-01-02" "day" fresh_client).1 =
    Raise (HTTPException 500 "Internal server error processing FX data").
Proof.
  assert (Main.validate_dates strptime_iso "2025-01-01" "2025-01-02" = Ok tt)
    as Hd by reflexivity.
  assert (Main.validate_breakdown "day" = Ok tt) as Hb by reflexivity.
  assert ((FXClient.get_range Main.truthy (upstream_up 0 no_usd)
     "2025-01-01" "2025-01-02" "EUR" "USD" fresh_client).1 = Ok no_usd) as Hr.
  { unfold FXClient.get_range.
    rewrite get_absent by apply lookup_empty. reflexivity. }
  assert (calculate_daily_metrics no_usd = Ok []) as Hempty
    by (vm_compute; reflexivity).
  repeat (split; [assumption|]).
  exact (proj2 (empty_series_is_reported_as_500 strptime_iso
                  (upstream_up 0 no_usd) "2025-01-01" "2025-01-02" "day"
                  fresh_client no_usd Hd Hb Hr Hempty)).
Defined.

(** * Further properties *)

(** ** The cache, further *)

(** X1. What [set] stores, [get] returns as long as it is fresh, and the
    cache is left as [set] made it; once the TTL has passed, [get] returns
    nothing and the key is gone.  A later [set] under the same key
    replaces the earlier one, timestamp included. *)
Theorem set_then_get {V : Type} (c : FXCache.t V) (key : string)
    (stored now : Z) (v : V) :
  (now - stored < FXCache.ttl c ->
     FXCache.get now key (FXCache.set stored key v c)
     = (Some v, FXCache.set stored key v c)) /\
  (FXCache.ttl c <= now - stored ->
     FXCache.get now key (FXCache.set stored key v c)
     = (None, {| FXCache.cache := delete key (FXCache.cache c);
                 FXCache.ttl := FXCache.ttl c |})) /\
  (forall stored' v',
     FXCache.set stored' key v' (FXCache.set stored key v c)
     = FXCache.set stored' key v' c).
Proof.
  split; [|split].
  - intros Hage. apply (get_fresh _ _ _ stored); [apply lookup_insert_eq|done].
  - intros Hage.
    rewrite (get_expired _ _ _ stored v); [|apply lookup_insert_eq|done].
    simpl. by rewrite delete_insert_eq.
  - intros stored' v'. unfold FXCache.set. simpl. by rewrite insert_insert_eq.
Qed.

Lemma set_then_get_witness :
  FXCache.get 299999999 "k" (FXCache.set 0 "k" two_day (FXCache.__init__ 300))
  = (Some two_day, FXCache.set 0 "k" two_day (FXCache.__init__ 300)) /\
  (FXCache.get 300000000 "k"
     (FXCache.set 0 "k" two_day (FXCache.__init__ 300))).1 = None.
Proof.
  destruct (set_then_get (FXCache.__init__ 300) "k" 0 299999999 two_day)
    as (Hfresh & _ & _).
  destruct (set_then_get (FXCache.__init__ 300) "k" 0 300000000 two_day)
    as (_ & Hold & _).
  split; [by apply Hfresh|]. by rewrite Hold.
Defined.

(** X2. Operations on different keys do not interfere: a lookup of
    [key'] gives the same answer before and after a [set] of another
    key, and the two leave the same cache in either order. *)
Theorem set_get_other_key {V : Type} (c : FXCache.t V) (key key' : string)
    (stored now : Z) (v : V) :
  key' ≠ key ->
  (FXCache.get now key' (FXCache.set stored key v c)).1
    = (FXCache.get now key' c).1 /\
  (FXCache.get now key' (FXCache.set stored key v c)).2
    = FXCache.set stored key v (FXCache.get now key' c).2.
Proof.
  intros Hne. unfold FXCache.get, FXCache.set. simpl.
  rewrite lookup_insert_ne by done.
  destruct (FXCache.cache c !! key') as [[timestamp v']|]; [|done].
  destruct (_ <? _); [done|]. simpl. split; [done|].
  by rewrite delete_insert_ne.
Qed.

Lemma set_get_other_key_witness :
  "b" ≠ "a" /\
  (FXCache.get 5 "b" (FXCache.set 0 "a" two_day (FXCache.__init__ 300))).1
  = None.
Proof.
  split; [done|].
  rewrite (proj1 (set_get_other_key (FXCache.__init__ 300) "a" "b" 0 5 two_day
                    ltac:(done))).
  reflexivity.
Defined.

(** X3. After [clear] every lookup misses, whatever was stored and
    however fresh, and the TTL is the one the cache was built with; the
    next client call with any parameters goes upstream. *)
Theorem clear_forgets_everything {V : Type} (truthy : V -> bool)
    (c : FXCache.t V) :
  FXCache.ttl (FXCache.clear c) = FXCache.ttl c /\
  (forall now key,
     FXCache.get now key (FXCache.clear c) = (None, FXCache.clear c)) /\
  (forall w start_date end_date base symbols sent,
     FXClient.sent
       (FXClient.get_range truthy w start_date end_date base symbols
          {| FXClient.cache := FXCache.clear c; FXClient.sent := sent |}).2
     = sent ++ [FXClient.range_request start_date end_date base symbols]) /\
  (forall w base symbols sent,
     FXClient.sent
       (FXClient.get_latest truthy w base symbols
          {| FXClient.cache := FXCache.clear c; FXClient.sent := sent |}).2
     = sent ++ [FXClient.latest_request base symbols]).
Proof.
  assert (forall now key,
    FXCache.get now key (FXCache.clear c) = (None, FXCache.clear c)) as Hget.
  { intros now key. apply get_absent. apply lookup_empty. }
  split; [done|]. split; [done|]. split.
  - intros w start_date end_date base symbols sent.
    rewrite get_range_miss.
    + by destruct (FXClient.exchange w).
    + intros v Hv. simpl in Hv. by rewrite Hget in Hv.
  - intros w base symbols sent.
    rewrite get_latest_miss.
    + by destruct (FXClient.exchange w).
    + intros v Hv. simpl in Hv. by rewrite Hget in Hv.
Qed.

(** X4. A cache built with a TTL of zero or less never serves anything:
    a lookup made no earlier than the entry was stored finds it expired. *)
Theorem nonpositive_ttl_never_serves {V : Type} (c : FXCache.t V)
    (key : string) (now : Z) :
  FXCache.ttl c <= 0 ->
  (forall timestamp v,
     FXCache.cache c !! key = Some (timestamp, v) -> timestamp <= now) ->
  (FXCache.get now key c).1 = None /\
  FXCache.cache (FXCache.get now key c).2 !! key = None.
Proof.
  intros Httl Hclock. unfold FXCache.get.
  destruct (FXCache.cache c !! key) as [[timestamp v]|] eqn:E; [|done].
  specialize (Hclock _ _ eq_refl).
  rewrite (proj2 (Z.ltb_ge _ _)) by lia.
  simpl. split; [done|]. apply lookup_delete_eq.
Qed.

Lemma nonpositive_ttl_never_serves_witness :
  let c := FXCache.set 10 "k" two_day (FXCache.__init__ 0) in
  FXCache.ttl c <= 0 /\ (FXCache.get 10 "k" c).1 = None.
Proof.
  intros c.
  assert (FXCache.ttl c <= 0) as Httl by done.
  split; [done|].
  apply (nonpositive_ttl_never_serves c "k" 10 Httl).
  intros timestamp v H. unfold c in H. simpl in H.
  rewrite lookup_insert_eq in H. injection H as <- _. done.
Defined.

(** ** Cache keys *)

Section cache_keys.

Lemma append_String (c : ascii) (a s : string) :
  String c a +:+ s = String c (a +:+ s).
Proof. done. Qed.

Lemma append_empty (s : string) : "" +:+ s = s.
Proof. done. Qed.

Lemma colon_split (a a' r r' : string) :
  colon_free a = true -> colon_free a' = true ->
  a +:+ ":" +:+ r = a' +:+ ":" +:+ r' -> a = a' /\ r = r'.
Proof.
  revert a'. induction a as [|x a IH]; intros [|x' a'];
    rewrite ?append_String, ?append_empty; simpl.
  - intros _ _ H. by injection H as ->.
  - intros _ [Hx' _]%andb_true_iff H. injection H as <- _. done.
  - intros [Hx _]%andb_true_iff _ H. injection H as -> _. done.
  - intros [_ Ha]%andb_true_iff [_ Ha']%andb_true_iff H.
    injection H as -> H.
    destruct (IH a' Ha Ha' H) as [-> ->]. done.
Qed.

Lemma range_key_not_latest_key
    (start_date end_date base symbols base' symbols' : string) :
  FXClient.range_key start_date end_date base symbols
  ≠ FXClient.latest_key base' symbols'.
Proof.
  unfold FXClient.range_key, FXClient.latest_key.
  rewrite !append_String. intros [=].
Qed.

End cache_keys.

(** X5. The key of a range query differs from the key of every latest
    query, and two range queries whose dates and base currency hold no
    [":"] have the same key only when all four parameters are the same. *)
Theorem cache_keys_distinguish_queries
    (start_date end_date base symbols : string)
    (start_date' end_date' base' symbols' : string) :
  colon_free start_date = true -> colon_free end_date = true ->
  colon_free base = true ->
  colon_free start_date' = true -> colon_free end_date' = true ->
  colon_free base' = true ->
  FXClient.range_key start_date end_date base symbols
    ≠ FXClient.latest_key base' symbols' /\
  (FXClient.range_key start_date end_date base symbols
   = FXClient.range_key start_date' end_date' base' symbols' ->
   start_date = start_date' /\ end_date = end_date' /\
   base = base' /\ symbols = symbols') /\
  (FXClient.latest_key base symbols = FXClient.latest_key base' symbols' ->
   base = base' /\ symbols = symbols').
Proof.
  intros Hs He Hb Hs' He' Hb'.
  split; [apply range_key_not_latest_key|]. split.
  - unfold FXClient.range_key. intros H.
    apply (inj (String.append "range:")) in H.
    apply colon_split in H as [-> H]; [|done..].
    apply colon_split in H as [-> H]; [|done..].
    apply colon_split in H as [-> ->]; done.
  - unfold FXClient.latest_key. intros H.
    apply (inj (String.append "latest:")) in H.
    apply colon_split in H as [-> ->]; done.
Qed.

Lemma cache_keys_distinguish_queries_witness :
  colon_free "2025-01-01" = true /\ colon_free "2025-01-31" = true /\
  colon_free "EUR" = true /\
  FXClient.range_key "2025-01-01" "2025-01-31" "EUR" "USD"
    ≠ FXClient.latest_key "EUR" "USD".
Proof.
  repeat (split; [reflexivity|]).
  exact (proj1 (cache_keys_distinguish_queries
    "2025-01-01" "2025-01-31" "EUR" "USD" "2025-01-01" "2025-01-31" "EUR" "USD"
    eq_refl eq_refl eq_refl eq_refl eq_refl eq_refl)).
Defined.

(** ** The client, further *)

Section client_further.
Context {V : Type} (truthy : V -> bool).
Implicit Types (w : FXClient.world V) (self : FXClient.t V).

Lemma get_latest_hit w base symbols self v :
  let key := FXClient.latest_key base symbols in
  let looked := FXCache.get (FXClient.now_get w) key (FXClient.cache self) in
  looked.1 = Some v -> truthy v = true ->
  FXClient.get_latest truthy w base symbols self =
  (Ok v, {| FXClient.cache := looked.2; FXClient.sent := FXClient.sent self |}).
Proof.
  intros key looked Hv Ht. unfold FXClient.get_latest. fold key. fold looked.
  destruct looked as [cached c]; simpl in *. subst cached. by rewrite Ht.
Qed.

(** Either the lookup gave something the client uses, or nothing. *)
Lemma usable_or_not (now : Z) (key : string) (c : FXCache.t V) :
  (exists v, (FXCache.get now key c).1 = Some v /\ truthy v = true) \/
  nothing_usable truthy now key c.
Proof.
  destruct (FXCache.get now key c).1 as [v|] eqn:E.
  - destruct (truthy v) eqn:Ht; [left; eauto|].
    right. intros v' Hv'. rewrite E in Hv'. by injection Hv' as <-.
  - right. intros v' Hv'. by rewrite E in Hv'.
Qed.

Lemma get_range_Raise w start_date end_date base symbols self e :
  (FXClient.get_range truthy w start_date end_date base symbols self).1
    = Raise e ->
  (exists msg, e = ValueError msg) /\
  nothing_usable truthy (FXClient.now_get w)
    (FXClient.range_key start_date end_date base symbols)
    (FXClient.cache self) /\
  (exists e1, FXClient.exchange w = Raise e1) /\
  (exists e2, FXClient.fallback_file w = Raise e2).
Proof.
  destruct (usable_or_not (FXClient.now_get w)
              (FXClient.range_key start_date end_date base symbols)
              (FXClient.cache self)) as [(v & Hv & Ht)|Hmiss].
  - by rewrite (get_range_hit truthy _ _ _ _ _ _ v).
  - rewrite get_range_miss by done.
    destruct (FXClient.exchange w) as [data|e1]; [done|].
    unfold FXClient._load_fallback.
    destruct (FXClient.fallback_file w) as [snapshot|e2]; [done|].
    simpl. intros [= <-]. eauto 10.
Qed.

Lemma get_latest_Raise w base symbols self e :
  (FXClient.get_latest truthy w base symbols self).1 = Raise e ->
  (exists msg, e = ValueError msg) /\
  nothing_usable truthy (FXClient.now_get w)
    (FXClient.latest_key base symbols) (FXClient.cache self) /\
  (exists e1, FXClient.exchange w = Raise e1) /\
  (exists e2, FXClient.fallback_file w = Raise e2).
Proof.
  destruct (usable_or_not (FXClient.now_get w)
              (FXClient.latest_key base symbols)
              (FXClient.cache self)) as [(v & Hv & Ht)|Hmiss].
  - by rewrite (get_latest_hit _ _ _ _ v).
  - rewrite get_latest_miss by done.
    destruct (FXClient.exchange w) as [data|e1]; [done|].
    unfold FXClient._load_fallback.
    destruct (FXClient.fallback_file w) as [snapshot|e2]; [done|].
    simpl. intros [= <-]. eauto 10.
Qed.

End client_further.

(** X6. A call served from the cache returns the stored document, sends
    nothing, and leaves the client exactly as it was: the entry keeps its
    timestamp, so being read does not prolong its life. *)
Theorem cache_hit_changes_nothing {V : Type} (truthy : V -> bool)
    (w : FXClient.world V) (self : FXClient.t V) (timestamp : Z) (v : V) :
  truthy v = true ->
  FXClient.now_get w - timestamp < FXCache.ttl (FXClient.cache self) ->
  (forall start_date end_date base symbols,
     FXCache.cache (FXClient.cache self)
       !! FXClient.range_key start_date end_date base symbols
       = Some (timestamp, v) ->
     FXClient.get_range truthy w start_date end_date base symbols self
     = (Ok v, self)) /\
  (forall base symbols,
     FXCache.cache (FXClient.cache self) !! FXClient.latest_key base symbols
       = Some (timestamp, v) ->
     FXClient.get_latest truthy w base symbols self = (Ok v, self)).
Proof.
  intros Ht Hage. split.
  - intros start_date end_date base symbols Hin.
    pose proof (get_fresh _ _ _ _ _ Hin Hage) as Hget.
    rewrite (get_range_hit truthy _ _ _ _ _ _ v); rewrite ?Hget; [|done..].
    by destruct self.
  - intros base symbols Hin.
    pose proof (get_fresh _ _ _ _ _ Hin Hage) as Hget.
    rewrite (get_latest_hit truthy _ _ _ _ v); rewrite ?Hget; [|done..].
    by destruct self.
Qed.

Lemma cache_hit_changes_nothing_witness :
  Main.truthy two_day = true /\
  FXClient.get_range Main.truthy (upstream_down 299999999)
    "2025-01-01" "2025-01-02" "EUR" "USD" client_with_old_entry
  = (Ok two_day, client_with_old_entry).
Proof.
  assert (Main.truthy two_day = true) as Htrue.
  { unfold Main.truthy. rewrite bool_decide_eq_false_2; [done|].
    intros Heq. apply (f_equal (fun m => m !! "rates")) in Heq.
    unfold two_day in Heq.
    rewrite lookup_singleton_eq, lookup_empty in Heq. discriminate Heq. }
  split; [exact Htrue|].
  apply (proj1 (cache_hit_changes_nothing Main.truthy
                  (upstream_down 299999999) client_with_old_entry 0 two_day
                  Htrue ltac:(done))).
  apply lookup_insert_eq.
Defined.

(** X7. The only exception [get_range] and [get_latest] raise is
    [ValueError], and only when the cache gave nothing usable, the
    exchange with the provider failed and the fallback file failed to
    load. *)
Theorem client_raises_only_ValueError {V : Type} (truthy : V -> bool)
    (w : FXClient.world V) (self : FXClient.t V) (e : exn) :
  (forall start_date end_date base symbols,
     (FXClient.get_range truthy w start_date end_date base symbols self).1
       = Raise e ->
     (exists msg, e = ValueError msg) /\
     nothing_usable truthy (FXClient.now_get w)
       (FXClient.range_key start_date end_date base symbols)
       (FXClient.cache self) /\
     (exists e1, FXClient.exchange w = Raise e1) /\
     (exists e2, FXClient.fallback_file w = Raise e2)) /\
  (forall base symbols,
     (FXClient.get_latest truthy w base symbols self).1 = Raise e ->
     (exists msg, e = ValueError msg) /\
     nothing_usable truthy (FXClient.now_get w)
       (FXClient.latest_key base symbols) (FXClient.cache self) /\
     (exists e1, FXClient.exchange w = Raise e1) /\
     (exists e2, FXClient.fallback_file w = Raise e2)).
Proof.
  split.
  - intros start_date end_date base symbols. apply get_range_Raise.
  - intros base symbols. apply get_latest_Raise.
Qed.

Lemma client_raises_only_ValueError_witness :
  exists e msg,
    (FXClient.get_range Main.truthy (all_down 0)
       "2025-01-01" "2025-01-02" "EUR" "USD" fresh_client).1 = Raise e /\
    e = ValueError msg.
Proof.
  eexists. 
  assert ((FXClient.get_range Main.truthy (all_down 0)
       "2025-01-01" "2025-01-02" "EUR" "USD" fresh_client).1
       = Raise (ValueError
           ("Unable to fetch FX data from API and fallback file not available. "
            +:+ "Please check your connection or ensure data/sample_fx.json exists.")))
    as H.
  { unfold FXClient.get_range.
    rewrite get_absent by apply lookup_empty. reflexivity. }
  destruct (proj1 (client_raises_only_ValueError Main.truthy (all_down 0)
                     fresh_client _) _ _ _ _ H) as ([msg Hmsg] & _).
  exists msg. split; [exact H|exact Hmsg].
Defined.

(** X8. A call that misses the cache and is answered by the provider
    returns the provider's document, whatever it is, sends one request,
    stores the document under the call's own key with the instant of the
    store, and leaves every other key as it was. *)
Theorem successful_fetch_is_cached {V : Type} (truthy : V -> bool)
    (w : FXClient.world V) (self : FXClient.t V) (data : V) :
  FXClient.exchange w = Ok data ->
  (forall start_date end_date base symbols,
     let key := FXClient.range_key start_date end_date base symbols in
     nothing_usable truthy (FXClient.now_get w) key (FXClient.cache self) ->
     let call :=
       FXClient.get_range truthy w start_date end_date base symbols self in
     call.1 = Ok data /\
     FXClient.sent call.2 =
       FXClient.sent self ++
       [FXClient.range_request start_date end_date base symbols] /\
     FXCache.cache (FXClient.cache call.2) !! key
       = Some (FXClient.now_set w, data) /\
     forall key', key' ≠ key ->
       FXCache.cache (FXClient.cache call.2) !! key'
       = FXCache.cache (FXClient.cache self) !! key') /\
  (forall base symbols,
     let key := FXClient.latest_key base symbols in
     nothing_usable truthy (FXClient.now_get w) key (FXClient.cache self) ->
     let call := FXClient.get_latest truthy w base symbols self in
     call.1 = Ok data /\
     FXClient.sent call.2 =
       FXClient.sent self ++ [FXClient.latest_request base symbols] /\
     FXCache.cache (FXClient.cache call.2) !! key
       = Some (FXClient.now_set w, data) /\
     forall key', key' ≠ key ->
       FXCache.cache (FXClient.cache call.2) !! key'
       = FXCache.cache (FXClient.cache self) !! key').
Proof.
  intros Hok. split.
  - intros start_date end_date base symbols key Hmiss call.
    unfold call. rewrite get_range_miss by done. rewrite Hok.
    cbn [fst snd FXClient.cache FXClient.sent FXCache.set FXCache.cache].
    split; [done|]. split; [done|]. split; [apply lookup_insert_eq|].
    intros key' Hne. rewrite lookup_insert_ne by done.
    by apply get_other_key.
  - intros base symbols key Hmiss call.
    unfold call. rewrite get_latest_miss by done. rewrite Hok.
    cbn [fst snd FXClient.cache FXClient.sent FXCache.set FXCache.cache].
    split; [done|]. split; [done|]. split; [apply lookup_insert_eq|].
    intros key' Hne. rewrite lookup_insert_ne by done.
    by apply get_other_key.
Qed.

Lemma successful_fetch_is_cached_witness :
  FXClient.exchange (upstream_up 0 no_usd) = Ok no_usd /\
  FXCache.cache (FXClient.cache
    (FXClient.get_latest Main.truthy (upstream_up 0 no_usd) "EUR" "USD"
       fresh_client).2) !! FXClient.latest_key "EUR" "USD"
  = Some (500000, no_usd).
Proof.
  split; [reflexivity|].
  refine (proj1 (proj2 (proj2 (proj2 (successful_fetch_is_cached Main.truthy
    (upstream_up 0 no_usd) fresh_client no_usd eq_refl) "EUR" "USD" _)))).
  intros v Hv. unfold FXCache.get in Hv. simpl in Hv.
  by rewrite lookup_empty in Hv.
Defined.

(** X10. The two operations keep apart: a [get_latest] call never
    touches the entry of any range query, and a [get_range] call never
    touches the entry of any latest query. *)
Theorem range_and_latest_entries_are_separate {V : Type}
    (truthy : V -> bool) (w : FXClient.world V) (self : FXClient.t V)
    (start_date end_date base symbols base' symbols' : string) :
  FXCache.cache (FXClient.cache
    (FXClient.get_latest truthy w base' symbols' self).2)
    !! FXClient.range_key start_date end_date base symbols
  = FXCache.cache (FXClient.cache self)
    !! FXClient.range_key start_date end_date base symbols /\
  FXCache.cache (FXClient.cache
    (FXClient.get_range truthy w start_date end_date base symbols self).2)
    !! FXClient.latest_key base' symbols'
  = FXCache.cache (FXClient.cache self) !! FXClient.latest_key base' symbols'.
Proof.
  pose proof (range_key_not_latest_key start_date end_date base symbols
                base' symbols') as Hne.
  split.
  - destruct (usable_or_not truthy (FXClient.now_get w)
                (FXClient.latest_key base' symbols') (FXClient.cache self))
      as [(v & Hv & Ht)|Hmiss].
    + rewrite (get_latest_hit truthy _ _ _ _ v) by done.
      cbn [snd FXClient.cache]. by apply get_other_key.
    + rewrite get_latest_miss by done.
      destruct (FXClient.exchange w);
        cbn [snd FXClient.cache FXCache.set FXCache.cache];
        rewrite ?lookup_insert_ne by done; by apply get_other_key.
  - destruct (usable_or_not truthy (FXClient.now_get w)
                (FXClient.range_key start_date end_date base symbols)
                (FXClient.cache self)) as [(v & Hv & Ht)|Hmiss].
    + rewrite (get_range_hit truthy _ _ _ _ _ _ v) by done.
      cbn [snd FXClient.cache]. by apply get_other_key.
    + rewrite get_range_miss by done.
      destruct (FXClient.exchange w);
        cbn [snd FXClient.cache FXCache.set FXCache.cache];
        rewrite ?lookup_insert_ne by done; by apply get_other_key.
Qed.

(** ** Sequences of calls *)

Section sessions.
Context {V : Type} (truthy : V -> bool).
Implicit Types (self : FXClient.t V) (c : Session.call V).

(** One call either is served from the cache, or stores the provider's
    document, or is served from the fallback; in each case the cache it
    leaves is the one its lookup left, plus at most the stored entry. *)
Lemma after_cases self c :
  let w := Session.world_of c in
  exists key req,
    let looked := FXCache.get (FXClient.now_get w) key (FXClient.cache self) in
    Session.after truthy self c =
      {| FXClient.cache := looked.2; FXClient.sent := FXClient.sent self |} \/
    (exists data, FXClient.exchange w = Ok data /\
       Session.after truthy self c =
       {| FXClient.cache := FXCache.set (FXClient.now_set w) key data looked.2;
          FXClient.sent := FXClient.sent self ++ [req] |}) \/
    (exists e, FXClient.exchange w = Raise e /\
       Session.after truthy self c =
       {| FXClient.cache := looked.2;
          FXClient.sent := FXClient.sent self ++ [req] |}).
Proof.
  destruct c as [w start_date end_date base symbols|w base symbols]; simpl.
  - exists (FXClient.range_key start_date end_date base symbols),
      (FXClient.range_request start_date end_date base symbols).
    destruct (usable_or_not truthy (FXClient.now_get w)
                (FXClient.range_key start_date end_date base symbols)
                (FXClient.cache self)) as [(v & Hv & Ht)|Hmiss].
    + left. by rewrite (get_range_hit truthy _ _ _ _ _ _ v).
    + right. rewrite get_range_miss by done.
      destruct (FXClient.exchange w) as [data|e]; [left|right]; eauto.
  - exists (FXClient.latest_key base symbols),
      (FXClient.latest_request base symbols).
    destruct (usable_or_not truthy (FXClient.now_get w)
                (FXClient.latest_key base symbols)
                (FXClient.cache self)) as [(v & Hv & Ht)|Hmiss].
    + left. by rewrite (get_latest_hit truthy _ _ _ _ v).
    + right. rewrite get_latest_miss by done.
      destruct (FXClient.exchange w) as [data|e]; [left|right]; eauto.
Qed.

Lemma after_invariants self c :
  let self' := Session.after truthy self c in
  (exists more, FXClient.sent self' = FXClient.sent self ++ more /\
                (length more <= 1)%nat) /\
  FXCache.ttl (FXClient.cache self') = FXCache.ttl (FXClient.cache self) /\
  (forall key timestamp v,
     FXCache.cache (FXClient.cache self') !! key = Some (timestamp, v) ->
     FXCache.cache (FXClient.cache self) !! key = Some (timestamp, v) \/
     (FXClient.exchange (Session.world_of c) = Ok v /\
      FXClient.now_set (Session.world_of c) = timestamp)).
Proof.
  intros self'. unfold self'.
  destruct (after_cases self c)
    as (key & req & [->|[(data & Hok & ->)|(e & He & ->)]]);
    cbn [FXClient.cache FXClient.sent].
  - split; [exists []; split; [by rewrite app_nil_r|simpl; lia]|].
    split; [apply get_ttl|].
    intros key' timestamp v Hin. left.
    eapply lookup_weaken; [exact Hin|apply get_subseteq].
  - split; [exists [req]; split; [done|simpl; lia]|].
    split; [simpl; apply get_ttl|].
    intros key' timestamp v Hin. simpl in Hin.
    destruct (decide (key' = key)) as [->|Hne].
    + rewrite lookup_insert_eq in Hin. injection Hin as <- <-. by right.
    + rewrite lookup_insert_ne in Hin by done. left.
      eapply lookup_weaken; [exact Hin|apply get_subseteq].
  - split; [exists [req]; split; [done|simpl; lia]|].
    split; [apply get_ttl|].
    intros key' timestamp v Hin. left.
    eapply lookup_weaken; [exact Hin|apply get_subseteq].
Qed.

End sessions.

(** X9. However many calls are made on a client and whatever the
    provider and the clock do: the log of requests only grows, by at
    most one request per call; the TTL is the one the client started
    with; and every entry in the cache was either there at the start or
    is a document the provider returned in one of the calls, stamped
    with that call's store instant.  Fallback data is never cached. *)
Theorem session_invariants {V : Type} (truthy : V -> bool)
    (calls : list (Session.call V)) (self : FXClient.t V) :
  let final := Session.run truthy calls self in
  (exists more, FXClient.sent final = FXClient.sent self ++ more /\
                (length more <= length calls)%nat) /\
  FXCache.ttl (FXClient.cache final) = FXCache.ttl (FXClient.cache self) /\
  (forall key timestamp v,
     FXCache.cache (FXClient.cache final) !! key = Some (timestamp, v) ->
     FXCache.cache (FXClient.cache self) !! key = Some (timestamp, v) \/
     exists c, c ∈ calls /\
       FXClient.exchange (Session.world_of c) = Ok v /\
       FXClient.now_set (Session.world_of c) = timestamp).
Proof.
  revert self. induction calls as [|c calls IH]; intros self final.
  - split; [exists []; split; [by rewrite app_nil_r|simpl; lia]|]. split; [done|]. by left.
  - unfold final, Session.run. simpl.
    destruct (after_invariants truthy self c) as ((m1 & Hs1 & Hl1) & Ht1 & Hc1).
    destruct (IH (Session.after truthy self c))
      as ((m2 & Hs2 & Hl2) & Ht2 & Hc2).
    unfold Session.run in Hs2, Ht2, Hc2. split; [|split].
    + exists (m1 ++ m2). rewrite Hs2, Hs1, app_assoc. split; [done|].
      rewrite length_app. simpl. lia.
    + by rewrite Ht2.
    + intros key timestamp v Hin.
      destruct (Hc2 _ _ _ Hin) as [Hmid|(c' & Hc' & Hok & Hts)].
      * destruct (Hc1 _ _ _ Hmid) as [?|[Hok Hts]]; [by left|].
        right. exists c. split; [left|done].
      * right. exists c'. split; [by right|done].
Qed.

(** ** The metrics engine, further *)

Section metrics_further.
Implicit Types (rates : gmap string date_rates) (d k : string).
Implicit Types (l : list (string * float)).

(** Two ascending runs of dated rates with the same members are the same
    run. *)
Lemma dated_unique l1 l2 :
  StronglySorted str_lt l1.*1 -> StronglySorted str_lt l2.*1 ->
  (forall p, p ∈ l1 <-> p ∈ l2) -> l1 = l2.
Proof.
  revert l2. induction l1 as [|[d1 c1] l1 IH]; intros l2 H1 H2 Hmem.
  - destruct l2 as [|p l2]; [done|].
    exfalso. eapply not_elem_of_nil, Hmem. left.
  - destruct l2 as [|[d2 c2] l2].
    { exfalso. eapply not_elem_of_nil, Hmem. left. }
    simpl in H1, H2.
    apply StronglySorted_inv in H1 as [H1 Hall1].
    apply StronglySorted_inv in H2 as [H2 Hall2].
    rewrite Forall_forall in Hall1, Hall2.
    assert ((d1, c1) = (d2, c2)) as Hhead.
    { pose proof (proj1 (Hmem (d1, c1)) ltac:(left)) as Hin1.
      pose proof (proj2 (Hmem (d2, c2)) ltac:(left)) as Hin2.
      apply elem_of_cons in Hin1 as [?|Hin1]; [done|].
      apply elem_of_cons in Hin2 as [?|Hin2]; [done|].
      exfalso. apply (str_lt_irrefl d1).
      apply (str_lt_trans d1 d2 d1).
      - apply Hall1. apply list_elem_of_fmap. by exists (d2, c2).
      - apply Hall2. apply list_elem_of_fmap. by exists (d1, c1). }
    injection Hhead as <- <-. f_equal. apply IH; [done..|].
    intros [d c]. split; intros Hin.
    + pose proof (proj1 (Hmem (d, c)) ltac:(by right)) as Hin'.
      apply elem_of_cons in Hin' as [[= -> ->]|?]; [|done].
      exfalso. apply (str_lt_irrefl d1), Hall1.
      apply list_elem_of_fmap. by exists (d1, c1).
    + pose proof (proj2 (Hmem (d, c)) ltac:(by right)) as Hin'.
      apply elem_of_cons in Hin' as [[= -> ->]|?]; [|done].
      exfalso. apply (str_lt_irrefl d1), Hall2.
      apply list_elem_of_fmap. by exists (d1, c1).
Qed.

Lemma dated_rates_ext rates rates' :
  (forall d, rate_on rates d = rate_on rates' d) ->
  dated_rates rates = dated_rates rates'.
Proof.
  intros Hsame. apply dated_unique; try apply dated_rates_ascending.
  intros [d c]. rewrite !elem_of_dated_rates. by rewrite Hsame.
Qed.

Lemma chain_app previous l1 l2 :
  chain previous (l1 ++ l2) =
  chain previous l1 ++
  chain (from_option (fun p => Some p.2) previous (last l1)) l2.
Proof.
  revert previous. induction l1 as [|[d c] l1 IH]; intros previous; [done|].
  assert (from_option (fun p : string * float => Some p.2) previous
            (last ((d, c) :: l1))
          = from_option (fun p : string * float => Some p.2) (Some c)
              (last l1)) as ->.
  { destruct l1 as [|p l1]; [done|]. rewrite last_cons_cons.
    destruct (last (p :: l1)) eqn:E; [done|]. by apply last_None in E. }
  simpl. by rewrite IH.
Qed.

Lemma omap_all_keep rates (ds : list string) :
  Forall (fun d => is_Some (rate_on rates d)) ds ->
  (omap (fun d => pair d <$> rate_on rates d) ds).*1 = ds.
Proof.
  induction 1 as [|d ds [c Hc] _ IH]; [done|].
  rewrite omap_step, Hc. simpl. f_equal. exact IH.
Qed.

Lemma sorted_keys_insert rates k dr :
  Forall (fun d => str_lt d k) (keys rates) ->
  sorted (keys (<[k := dr]> rates)) = sorted (keys rates) ++ [k].
Proof.
  intros Hlt.
  assert (rates !! k = None) as Hnone.
  { destruct (rates !! k) as [x|] eqn:E; [|done].
    rewrite Forall_forall in Hlt.
    destruct (str_lt_irrefl k). apply Hlt, elem_of_keys. eauto. }
  apply (StronglySorted_unique str_le).
  - apply sorted_ascending.
  - apply StronglySorted_app_2;
      [|apply sorted_ascending|repeat constructor].
    intros d1 d2 Hd1 Hd2. apply list_elem_of_singleton in Hd2 as ->.
    rewrite sorted_Permutation in Hd1. rewrite Forall_forall in Hlt.
    apply str_le_cases. left. by apply Hlt.
  - rewrite sorted_Permutation. unfold keys at 1.
    rewrite (map_to_list_insert rates k dr Hnone). simpl.
    rewrite <- Permutation_cons_append. constructor.
    symmetry. apply sorted_Permutation.
Qed.

End metrics_further.


(** X12. The output depends on nothing but the USD rate of each date:
    two documents whose series give every date the same USD rate, or
    none, have the same output, whatever else they hold (other
    currencies, dates without a USD rate, other entries of the
    document, bare or bundled rates). *)
Theorem daily_metrics_depend_on_usd_rates_only
    (rates_data rates_data' : gmap string entry)
    (rates rates' : gmap string date_rates) :
  rates_data !! "rates" = Some (Mapping rates) ->
  rates_data' !! "rates" = Some (Mapping rates') ->
  (forall d, usd_rate rates d = usd_rate rates' d) ->
  calculate_daily_metrics rates_data = calculate_daily_metrics rates_data'.
Proof.
  intros H H' Hsame.
  rewrite (calculate_daily_metrics_chain _ _ H).
  rewrite (calculate_daily_metrics_chain _ _ H').
  rewrite (dated_rates_ext rates rates'); [done|].
  intros d. by rewrite !rate_on_usd_rate.
Qed.

Lemma daily_metrics_depend_on_usd_rates_only_witness :
  calculate_daily_metrics
    (<["base" := Scalar "EUR"]>
       {[ "rates" := Mapping
            {[ "2025-01-01" := Bundle (<["GBP" := Some 0.84%float]>
                                         {[ "USD" := Some 1.10%float ]}) ]} ]})
  = calculate_daily_metrics
      {[ "rates" := Mapping {[ "2025-01-01" := Direct (Some 1.10%float) ]} ]}.
Proof.
  eapply (daily_metrics_depend_on_usd_rates_only _ _
    {[ "2025-01-01" := Bundle (<["GBP" := Some 0.84%float]>
                                 {[ "USD" := Some 1.10%float ]}) ]}
    {[ "2025-01-01" := Direct (Some 1.10%float) ]}).
  - rewrite lookup_insert_ne by done. apply lookup_singleton_eq.
  - apply lookup_singleton_eq.
  - intros d. unfold usd_rate.
    destruct (decide (d = "2025-01-01")) as [->|Hne].
    + rewrite !lookup_singleton_eq. by vm_compute.
    + by rewrite !lookup_singleton_ne.
Defined.

(** X13. Adding a date later than every date of the series, with a
    rate, leaves every entry of the output as it was and adds one entry
    at the end, for that date, with its rate rounded to 6 places. *)
Theorem later_date_appends_one_entry (rates_data : gmap string entry)
    (rates : gmap string date_rates) (k : string) (dr : date_rates)
    (c : float) :
  rates_data !! "rates" = Some (Mapping rates) ->
  (forall d, is_Some (rates !! d) -> String.ltb d k = true) ->
  usd_rate (<[k := dr]> rates) k = Some c ->
  exists out m,
    calculate_daily_metrics rates_data = Ok out /\
    calculate_daily_metrics
      (<["rates" := Mapping (<[k := dr]> rates)]> rates_data)
      = Ok (out ++ [m]) /\
    date m = k /\ rate m = round c 6 /\
    (out = [] -> pct_change m = None).
Proof.
  intros H Hlater Hc.
  rewrite <- rate_on_usd_rate in Hc. unfold rate_on in Hc.
  rewrite lookup_insert_eq in Hc. simpl in Hc.
  assert (Forall (fun d => str_lt d k) (keys rates)) as Hlt.
  { apply Forall_forall. intros d Hd. by apply Hlater, elem_of_keys. }
  assert (rates !! k = None) as Hnone.
  { destruct (rates !! k) as [x|] eqn:E; [|done].
    destruct (str_lt_irrefl k). apply Hlater. eauto. }
  assert (dated_rates (<[k := dr]> rates) = dated_rates rates ++ [(k, c)])
    as Hd.
  { unfold dated_rates. rewrite (sorted_keys_insert rates k dr Hlt).
    rewrite omap_app. f_equal.
    - apply omap_agree, Forall_forall. intros d Hd.
      rewrite sorted_Permutation in Hd.
      unfold rate_on. rewrite lookup_insert_ne; [done|].
      intros ->. apply elem_of_keys in Hd as [x Hx]. by rewrite Hnone in Hx.
    - rewrite omap_step. unfold rate_on. rewrite lookup_insert_eq.
      simpl. by rewrite Hc. }
  eexists _, _.
  split; [by apply calculate_daily_metrics_chain|].
  rewrite (calculate_daily_metrics_chain _ (<[k := dr]> rates))
    by apply lookup_insert_eq.
  rewrite Hd, chain_app. simpl.
  split; [reflexivity|]. split; [done|]. split; [done|].
  intros Hempty.
  assert (dated_rates rates = []) as ->; [|done].
  apply (f_equal length) in Hempty. rewrite length_chain in Hempty.
  by destruct (dated_rates rates).
Qed.

Lemma later_date_appends_one_entry_witness :
  two_day !! "rates" = Some (Mapping two_day_series) /\
  exists out m,
    calculate_daily_metrics two_day = Ok out /\
    calculate_daily_metrics
      (<["rates" := Mapping
           (<["2025-01-03" := Direct (Some 1.5%float)]> two_day_series)]>
         two_day) = Ok (out ++ [m]) /\
    date m = "2025-01-03".
Proof.
  split; [reflexivity|].
  destruct (later_date_appends_one_entry two_day two_day_series
              "2025-01-03" (Direct (Some 1.5%float)) 1.5%float eq_refl)
    as (out & m & H1 & H2 & H3 & _).
  - intros d [x Hx].
    destruct (decide (d = "2025-01-02")) as [->|H2]; [reflexivity|].
    destruct (decide (d = "2025-01-01")) as [->|H1]; [reflexivity|].
    unfold two_day_series in Hx.
    by rewrite !lookup_insert_ne, lookup_empty in Hx.
  - reflexivity.
  - exists out, m. split; [exact H1|]. split; [exact H2|exact H3].
Defined.

(** X14. When every date of the series carries a rate, the output has
    one entry per date: its dates are the keys of the series in
    ascending order, none dropped. *)
Theorem all_dates_emitted_when_all_carry_a_rate
    (rates_data : gmap string entry) (rates : gmap string date_rates) :
  rates_data !! "rates" = Some (Mapping rates) ->
  (forall d, is_Some (rates !! d) -> is_Some (usd_rate rates d)) ->
  exists out,
    calculate_daily_metrics rates_data = Ok out /\
    date <$> out = sorted (keys rates) /\
    length out = size rates.
Proof.
  intros H Hall. eexists.
  split; [by apply calculate_daily_metrics_chain|].
  assert ((dated_rates rates).*1 = sorted (keys rates)) as Hdates.
  { apply omap_all_keep, Forall_forall. intros d Hd.
    rewrite sorted_Permutation in Hd.
    rewrite rate_on_usd_rate. by apply Hall, elem_of_keys. }
  rewrite chain_dates. split; [done|].
  rewrite length_chain, <- (length_fmap fst), Hdates.
  by rewrite sorted_Permutation, length_keys.
Qed.

Lemma all_dates_emitted_when_all_carry_a_rate_witness :
  two_day !! "rates" = Some (Mapping two_day_series) /\
  exists out, calculate_daily_metrics two_day = Ok out /\ length out = 2%nat.
Proof.
  split; [reflexivity|].
  destruct (all_dates_emitted_when_all_carry_a_rate two_day two_day_series
              eq_refl) as (out & Hout & _ & Hlen).
  - intros d [dr Hd]. unfold usd_rate.
    destruct (decide (d = "2025-01-02")) as [->|H2]; [by eexists|].
    destruct (decide (d = "2025-01-01")) as [->|H1]; [by eexists|].
    unfold two_day_series in Hd.
    by rewrite !lookup_insert_ne, lookup_empty in Hd.
  - exists out. split; [done|]. rewrite Hlen. reflexivity.
Defined.

(** ** The handlers, further *)

Section handlers_further.
Variable strptime : string -> string -> result Z.
Implicit Types (w : FXClient.world (gmap string entry)).
Implicit Types (fx_client : FXClient.t (gmap string entry)).

Lemma get_summary_rejected w start end_ breakdown fx_client e :
  Main.validate_dates strptime start end_ = Raise e ->
  Main.get_summary strptime w start end_ breakdown fx_client
  = (Raise e, fx_client).
Proof. intros H. unfold Main.get_summary. by rewrite H. Qed.

Lemma validate_dates_Ok start end_ :
  Main.validate_dates strptime start end_ = Ok tt <->
  exists a b, strptime start "%Y-%m-%d" = Ok a /\
              strptime end_ "%Y-%m-%d" = Ok b /\ a <= b.
Proof.
  unfold Main.validate_dates, mbind, result_bind, Py.bind, try_except. split.
  - destruct (strptime start "%Y-%m-%d") as [a|e]; [|by destruct e].
    destruct (strptime end_ "%Y-%m-%d") as [b|e]; [|by destruct e].
    destruct (b <? a) eqn:E; [done|]. intros _.
    apply Z.ltb_ge in E. eauto.
  - intros (a & b & -> & -> & Hle).
    by rewrite (proj2 (Z.ltb_ge _ _) Hle).
Qed.

(** What the [try] block with its two [except] clauses can give. *)
Lemma summary_body_statuses (fetched : result (gmap string entry))
    start end_ breakdown e :
  (forall e', fetched = Raise e' -> exists msg, e' = ValueError msg) ->
  try_except
    (rates_data ← fetched; Main.summarise rates_data start end_ breakdown)
    Main.on_error = Raise e ->
  exists code detail, e = HTTPException code detail /\ (code = 503 \/ code = 500).
Proof.
  intros Hfetch.
  destruct fetched as [rates_data|e'].
  - change (rates_data0 ← Ok rates_data;
            Main.summarise rates_data0 start end_ breakdown)
      with (Main.summarise rates_data start end_ breakdown).
    unfold try_except.
    destruct (Main.summarise rates_data start end_ breakdown) as [r|e1];
      [done|].
    destruct e1; simpl; intros [= <-]; eauto.
  - destruct (Hfetch e' eq_refl) as [msg ->]. simpl. intros [= <-]. eauto.
Qed.

End handlers_further.

(** X15. A request with a malformed date, with a start after its end,
    or with a breakdown other than ['day'] and ['none'] is answered 400,
    dates being checked first, and the client is left untouched: no
    cache lookup is made and nothing is sent upstream.  Equal start and
    end dates pass. *)
Theorem invalid_request_rejected_before_fetch
    (strptime : string -> string -> result Z)
    (w : FXClient.world (gmap string entry)) (start end_ breakdown : string)
    (fx_client : FXClient.t (gmap string entry)) :
  (forall msg,
     strptime start "%Y-%m-%d" = Raise (ValueError msg) ->
     Main.get_summary strptime w start end_ breakdown fx_client =
     (Raise (HTTPException 400
               ("Invalid date format. Use YYYY-MM-DD: " +:+ msg)),
      fx_client)) /\
  (forall a msg,
     strptime start "%Y-%m-%d" = Ok a ->
     strptime end_ "%Y-%m-%d" = Raise (ValueError msg) ->
     Main.get_summary strptime w start end_ breakdown fx_client =
     (Raise (HTTPException 400
               ("Invalid date format. Use YYYY-MM-DD: " +:+ msg)),
      fx_client)) /\
  (forall a b,
     strptime start "%Y-%m-%d" = Ok a ->
     strptime end_ "%Y-%m-%d" = Ok b ->
     (b < a ->
      Main.get_summary strptime w start end_ breakdown fx_client =
      (Raise (HTTPException 400
                "Start date must be before or equal to end date"),
       fx_client)) /\
     (a <= b -> breakdown ≠ "day" -> breakdown ≠ "none" ->
      Main.get_summary strptime w start end_ breakdown fx_client =
      (Raise (HTTPException 400 "Breakdown must be 'day' or 'none'"),
       fx_client))).
Proof.
  split; [|split].
  - intros msg Hs. apply get_summary_rejected.
    unfold Main.validate_dates. by rewrite Hs.
  - intros a msg Hs He. apply get_summary_rejected.
    unfold Main.validate_dates. rewrite Hs. simpl. by rewrite He.
  - intros a b Hs He. split.
    + intros Hlt. apply get_summary_rejected.
      unfold Main.validate_dates. rewrite Hs. simpl. rewrite He. simpl.
      by rewrite (proj2 (Z.ltb_lt _ _) Hlt).
    + intros Hle Hday Hnone. unfold Main.get_summary.
      rewrite (proj2 (validate_dates_Ok strptime start end_)) by eauto.
      unfold Main.validate_breakdown.
      rewrite bool_decide_eq_false_2; [done|].
      intros Hin. apply elem_of_cons in Hin as [?|Hin]; [done|].
      apply elem_of_cons in Hin as [?|Hin]; [done|].
      by apply not_elem_of_nil in Hin.
Qed.

Lemma invalid_request_rejected_before_fetch_witness :
  Main.get_summary strptime_iso (upstream_up 0 two_day)
    "2025-01-02" "2025-01-01" "day" fresh_client
  = (Raise (HTTPException 400
              "Start date must be before or equal to end date"),
     fresh_client) /\
  Main.get_summary strptime_iso (upstream_up 0 two_day)
    "2025-01-01" "2025-01-01" "week" fresh_client
  = (Raise (HTTPException 400 "Breakdown must be 'day' or 'none'"),
     fresh_client).
Proof.
  split.
  - refine (proj1 (proj2 (proj2 (invalid_request_rejected_before_fetch
      strptime_iso (upstream_up 0 two_day) "2025-01-02" "2025-01-01" "day"
      fresh_client)) _ _ eq_refl eq_refl) _). by vm_compute.
  - refine (proj2 (proj2 (proj2 (invalid_request_rejected_before_fetch
      strptime_iso (upstream_up 0 two_day) "2025-01-01" "2025-01-01" "week"
      fresh_client)) _ _ eq_refl eq_refl) _ _ _); by vm_compute.
Defined.

(** X16. Provided [strptime] raises nothing but [ValueError], every
    failure of [get_summary] is an [HTTPException] with status 400, 503
    or 500; no other exception and no other status leaves it. *)
Theorem summary_fails_only_with_400_503_500
    (strptime : string -> string -> result Z)
    (w : FXClient.world (gmap string entry)) (start end_ breakdown : string)
    (fx_client : FXClient.t (gmap string entry)) (e : exn) :
  (forall s e', strptime s "%Y-%m-%d" = Raise e' ->
     exists msg, e' = ValueError msg) ->
  (Main.get_summary strptime w start end_ breakdown fx_client).1 = Raise e ->
  exists code detail,
    e = HTTPException code detail /\ (code = 400 \/ code = 503 \/ code = 500).
Proof.
  intros Hstrptime. unfold Main.get_summary.
  destruct (Main.validate_dates strptime start end_) as [[]|e1] eqn:Hd.
  - destruct (Main.validate_breakdown breakdown) as [[]|e2] eqn:Hb.
    + destruct (FXClient.get_range _ _ _ _ _ _ _) as [fetched fx'] eqn:Hcall.
      cbn [fst]. intros He.
      apply summary_body_statuses in He as (code & detail & -> & Hcode).
      * exists code, detail. split; [done|]. tauto.
      * intros e' ->.
        apply (f_equal fst) in Hcall. cbn [fst] in Hcall.
        by destruct (get_range_Raise Main.truthy _ _ _ _ _ _ _ Hcall).
    + cbn [fst]. intros [= <-]. unfold Main.validate_breakdown in Hb.
      destruct (bool_decide _); [done|]. injection Hb as <-. eauto 10.
  - cbn [fst]. intros [= <-].
    unfold Main.validate_dates, mbind, result_bind, Py.bind, try_except in Hd.
    destruct (strptime start "%Y-%m-%d") as [a|e'] eqn:Es.
    + destruct (strptime end_ "%Y-%m-%d") as [b|e''] eqn:Ee.
      * destruct (b <? a); [|done]. injection Hd as <-. eauto 10.
      * destruct (Hstrptime _ _ Ee) as [msg ->]. injection Hd as <-. eauto 10.
    + destruct (Hstrptime _ _ Es) as [msg ->]. injection Hd as <-. eauto 10.
Qed.

Lemma summary_fails_only_with_400_503_500_witness :
  (forall s e', strptime_iso s "%Y-%m-%d" = Raise e' ->
     exists msg, e' = ValueError msg) /\
  exists code detail,
    (Main.get_summary strptime_iso (all_down 0)
       "2025-01-01" "2025-01-02" "day" fresh_client).1
    = Raise (HTTPException code detail) /\
    (code = 400 \/ code = 503 \/ code = 500).
Proof.
  assert (forall s e', strptime_iso s "%Y-%m-%d" = Raise e' ->
            exists msg, e' = ValueError msg) as Hstrptime.
  { intros s e'. unfold strptime_iso.
    destruct (parse_iso s) as [[[y m] d]|]; [done|]. intros [= <-]. eauto. }
  split; [exact Hstrptime|].
  assert ((Main.get_summary strptime_iso (all_down 0)
             "2025-01-01" "2025-01-02" "day" fresh_client).1
          = Raise (HTTPException 503
              ("Unable to fetch FX data from API and fallback file not available. "
               +:+ "Please check your connection or ensure data/sample_fx.json exists.")))
    as Hrun by (by vm_compute).
  destruct (summary_fails_only_with_400_503_500 strptime_iso (all_down 0)
              "2025-01-01" "2025-01-02" "day" fresh_client _ Hstrptime Hrun)
    as (code & detail & Heq & Hcode).
  exists code, detail. split; [|exact Hcode]. by rewrite Hrun, Heq.
Defined.

(** X17. [get_summary_view] raises nothing but [HTTPException],
    whatever [strptime] and the template engine do: an [HTTPException]
    of [get_summary] is raised again as it is, anything else becomes a
    500.  The client is left as [get_summary] leaves it. *)
Theorem view_raises_only_HTTPException
    (strptime : string -> string -> result Z)
    (render : response -> string -> string -> string -> result string)
    (w : FXClient.world (gmap string entry)) (start end_ breakdown : string)
    (fx_client : FXClient.t (gmap string entry)) :
  (forall e,
     (View.get_summary_view strptime render w start end_ breakdown
        fx_client).1 = Raise e ->
     exists code detail, e = HTTPException code detail) /\
  (forall code detail,
     (Main.get_summary strptime w start end_ breakdown fx_client).1
       = Raise (HTTPException code detail) ->
     (View.get_summary_view strptime render w start end_ breakdown
        fx_client).1 = Raise (HTTPException code detail)) /\
  (forall e,
     (Main.get_summary strptime w start end_ breakdown fx_client).1 = Raise e ->
     (forall code detail, e ≠ HTTPException code detail) ->
     (View.get_summary_view strptime render w start end_ breakdown
        fx_client).1
     = Raise (HTTPException 500 "Error rendering visualization")) /\
  (View.get_summary_view strptime render w start end_ breakdown fx_client).2
  = (Main.get_summary strptime w start end_ breakdown fx_client).2.
Proof.
  unfold View.get_summary_view.
  destruct (Main.get_summary strptime w start end_ breakdown fx_client)
    as [answer fx_client'].
  cbn [fst snd]. split; [|split; [|split]]; [| | |done].
  - intros e. destruct answer as [data|e1].
    + change (data0 ← Ok data; render data0 start end_ breakdown)
        with (render data start end_ breakdown).
      unfold try_except.
      destruct (render data start end_ breakdown) as [html|e2]; [done|].
      destruct e2; intros [= <-]; eauto.
    + simpl. destruct e1; intros [= <-]; eauto.
  - by intros code detail ->.
  - intros e -> Hnot. simpl. destruct e; try done.
    by destruct (Hnot status_code detail).
Qed.

(** X18. A successful answer of [get_summary] is only ever given to a
    request whose dates parse with start not after end and whose
    breakdown is ['day'] or ['none'], from a fetched document that
    yields at least one daily metric.  It names EUR and USD, repeats the
    request's dates and breakdown, carries the totals of those metrics,
    and lists the metrics exactly when the breakdown is ['day']. *)
Theorem successful_summary_shape
    (strptime : string -> string -> result Z)
    (w : FXClient.world (gmap string entry)) (start end_ breakdown : string)
    (fx_client : FXClient.t (gmap string entry)) (resp : response) :
  (Main.get_summary strptime w start end_ breakdown fx_client).1 = Ok resp ->
  (exists a b, strptime start "%Y-%m-%d" = Ok a /\
               strptime end_ "%Y-%m-%d" = Ok b /\ a <= b) /\
  (breakdown = "day" \/ breakdown = "none") /\
  base resp = "EUR" /\ symbol resp = "USD" /\
  start_date resp = Some start /\ end_date resp = Some end_ /\
  FXCalculator.breakdown resp = breakdown /\
  exists rates_data daily_metrics totals,
    (FXClient.get_range Main.truthy w start end_ "EUR" "USD" fx_client).1
      = Ok rates_data /\
    calculate_daily_metrics rates_data = Ok daily_metrics /\
    daily_metrics ≠ [] /\
    calculate_totals daily_metrics = Ok totals /\
    resp_totals resp = totals /\
    (breakdown = "day" -> daily resp = Some daily_metrics) /\
    (breakdown = "none" -> daily resp = None).
Proof.
  unfold Main.get_summary.
  destruct (Main.validate_dates strptime start end_) as [[]|e1] eqn:Hd;
    [|done].
  apply validate_dates_Ok in Hd.
  destruct (Main.validate_breakdown breakdown) as [[]|e2] eqn:Hb; [|done].
  assert (breakdown = "day" \/ breakdown = "none") as Hmode.
  { unfold Main.validate_breakdown in Hb.
    destruct (bool_decide _) eqn:E; [|done].
    apply bool_decide_eq_true in E.
    apply elem_of_cons in E as [?|E]; [by left|].
    apply elem_of_cons in E as [?|E]; [by right|].
    by apply not_elem_of_nil in E. }
  destruct (FXClient.get_range _ _ _ _ _ _ _) as [fetched fx'].
  cbn [fst]. destruct fetched as [rates_data|e3]; [|by destruct e3].
  change (rates_data0 ← Ok rates_data;
          Main.summarise rates_data0 start end_ breakdown)
    with (Main.summarise rates_data start end_ breakdown).
  unfold Main.summarise, mbind, result_bind, Py.bind, try_except.
  destruct (calculate_daily_metrics rates_data) as [daily_metrics|e4] eqn:Hm;
    [|by destruct e4].
  destruct daily_metrics as [|m ms]; [done|].
  destruct (calculate_totals (m :: ms)) as [totals|e5] eqn:Ht;
    [|by destruct e5].
  intros [= <-]. split; [done|]. split; [done|]. simpl.
  repeat (split; [done|]).
  exists rates_data, (m :: ms), totals.
  repeat split; try done; by intros ->.
Qed.

Lemma successful_summary_shape_witness :
  exists resp,
    (Main.get_summary strptime_iso (upstream_up 0 two_day)
       "2025-01-01" "2025-01-02" "none" fresh_client).1 = Ok resp /\
    daily resp = None /\ start_date resp = Some "2025-01-01" /\
    exists totals, resp_totals resp = totals /\
      mean_rate totals = Some 1.155%float.
Proof.
  assert (exists resp,
    (Main.get_summary strptime_iso (upstream_up 0 two_day)
       "2025-01-01" "2025-01-02" "none" fresh_client).1 = Ok resp /\
    mean_rate (resp_totals resp) = Some 1.155%float)
    as (resp & Hrun & Hmean).
  { eexists. split; [by vm_compute|]. reflexivity. }
  destruct (successful_summary_shape strptime_iso (upstream_up 0 two_day)
              "2025-01-01" "2025-01-02" "none" fresh_client resp Hrun)
    as (_ & _ & _ & _ & Hs & _ & _ & rd & dm & totals & _ & _ & _ & _ & Ht
        & _ & Hnone).
  exists resp. split; [exact Hrun|]. split; [by apply Hnone|].
  split; [exact Hs|]. exists totals. split; [exact Ht|]. by rewrite <- Ht.
Defined.

(** ** The number of entries as a float *)

Section entry_count.

Lemma digits2_pos_size (p : positive) : digits2_pos p = Pos.size p.
Proof. induction p as [p IH|p IH|]; simpl; by rewrite ?IH. Qed.

Lemma digits2_lower (p : positive) : 2 ^ (Zpos (digits2_pos p) - 1) <= Zpos p.
Proof.
  rewrite digits2_pos_size.
  pose proof (Pos.size_le p) as H.
  apply Pos2Z.pos_le_pos in H. rewrite Pos2Z.inj_pow in H.
  assert (2 ^ Zpos (Pos.size p) = 2 * 2 ^ (Zpos (Pos.size p) - 1)) as Hpow.
  { rewrite <- Z.pow_succ_r by lia. f_equal. lia. }
  rewrite Hpow in H. lia.
Qed.

Lemma shr_1_halves (mrs : shr_record) :
  0 <= shr_m mrs ->
  2 * shr_m (shr_1 mrs) <= shr_m mrs <= 2 * shr_m (shr_1 mrs) + 1.
Proof.
  destruct mrs as [[|[p|p|]|p] r s]; simpl; lia.
Qed.

Lemma shr_1_lower (mrs : shr_record) (k : Z) :
  0 <= k -> 2 ^ (1 + k) <= shr_m mrs -> 2 ^ k <= shr_m (shr_1 mrs).
Proof.
  intros Hk H. rewrite Z.pow_add_r, Z.pow_1_r in H by lia.
  assert (0 < 2 ^ k) by (apply Z.pow_pos_nonneg; lia).
  pose proof (shr_1_halves mrs ltac:(lia)). lia.
Qed.

Lemma iter_shr_1_lower (p : positive) :
  forall (mrs : shr_record) (k : Z),
    0 <= k -> 2 ^ (Zpos p + k) <= shr_m mrs ->
    2 ^ k <= shr_m (SpecFloat.iter_pos shr_1 p mrs).
Proof.
  induction p as [p IH|p IH|]; intros mrs k Hk H; simpl.
  - apply IH; [done|]. apply IH; [lia|]. apply shr_1_lower; [lia|].
    replace (1 + (Zpos p + (Zpos p + k))) with (Zpos p~1 + k) by lia. done.
  - apply IH; [done|]. apply IH; [lia|].
    replace (Zpos p + (Zpos p + k)) with (Zpos p~0 + k) by lia. done.
  - by apply shr_1_lower.
Qed.

Lemma shr_m_of_loc (m : Z) (l : location) : shr_m (shr_record_of_loc m l) = m.
Proof. by destruct l as [|[]]. Qed.

Lemma shr_fexp_positive (m e : Z) (l : location) :
  0 < m -> SpecFloat.emin prec emax <= e ->
  0 < shr_m (shr_fexp prec emax m e l).1 /\ e <= (shr_fexp prec emax m e l).2.
Proof.
  intros Hm He. unfold shr_fexp, shr.
  destruct m as [|p|p]; [lia| |lia]. simpl Zdigits2.
  pose proof (digits2_lower p) as Hd.
  destruct (fexp prec emax (Zpos (digits2_pos p) + e) - e) as [|n|n] eqn:En;
    simpl; rewrite ?shr_m_of_loc; [lia| |lia].
  split; [|lia].
  assert (2 ^ 0 <= shr_m (SpecFloat.iter_pos shr_1 n (shr_record_of_loc (Zpos p) l)));
    [|simpl in *; lia].
  apply iter_shr_1_lower; [done|]. rewrite shr_m_of_loc.
  etransitivity; [|exact Hd].
  apply Z.pow_le_mono_r; [lia|].
  unfold fexp in En. unfold prec in *. lia.
Qed.

Lemma round_nearest_even_positive (m : Z) (l : location) :
  0 < m -> 0 < round_nearest_even m l.
Proof.
  intros Hm. destruct l as [|[]]; simpl; try lia.
  destruct (Z.even m); lia.
Qed.

Lemma binary_round_aux_not_zero (sx : bool) (m e : Z) (l : location) :
  0 < m -> SpecFloat.emin prec emax <= e ->
  SFeqb (binary_round_aux prec emax sx m e l) (S754_zero false) = false.
Proof.
  intros Hm He. unfold binary_round_aux.
  pose proof (shr_fexp_positive m e l Hm He) as [H1 He1].
  destruct (shr_fexp prec emax m e l) as [mrs' e']. simpl in H1, He1.
  pose proof (round_nearest_even_positive _ (loc_of_shr_record mrs') H1) as H2.
  pose proof (shr_fexp_positive _ e' loc_Exact H2 ltac:(lia)) as [H3 _].
  destruct (shr_fexp prec emax _ e' loc_Exact) as [mrs'' e'']. simpl in H3.
  destruct (shr_m mrs'') as [|q|q]; [lia| |lia].
  by destruct (e'' <=? emax - prec), sx.
Qed.

Lemma binary_normalize_not_zero (p : positive) :
  SFeqb (binary_normalize prec emax (Zpos p) 0 false) (S754_zero false) = false.
Proof.
  unfold binary_normalize, binary_round, shl_align.
  destruct (fexp prec emax (Zpos (digits2_pos p) + 0) - 0) as [|d|d] eqn:E;
    apply binary_round_aux_not_zero; try done.
  unfold fexp in *. lia.
Qed.

(** The length of a non-empty list, as a float, is not zero. *)
Lemma of_nat_not_zero (n : nat) :
  Z.of_nat (S n) < 2 ^ 63 -> (of_nat (S n) =? 0)%float = false.
Proof.
  intros Hn. unfold of_nat.
  assert (Z.of_nat (S n) = Uint63.to_Z (Uint63.of_Z (Z.of_nat (S n)))) as Hz.
  { rewrite Uint63.of_Z_spec, Z.mod_small; [done|]. split; [lia|exact Hn]. }
  rewrite Hz, <- of_uint63_spec, SF2Prim_Prim2SF.
  rewrite FloatAxioms.eqb_spec, of_uint63_spec, <- Hz.
  destruct (Z.of_nat (S n)) as [|p|p] eqn:E; [lia| |lia].
  apply binary_normalize_not_zero.
Qed.


End entry_count.



(** X20. A valid request whose fetched document has a series with at
    least one USD rate is answered successfully: [get_summary] returns a
    response, it does not raise.  (The series has fewer than 2^63
    dates.) *)
Theorem summary_succeeds_on_usable_data
    (strptime : string -> string -> result Z)
    (w : FXClient.world (gmap string entry)) (start end_ breakdown : string)
    (fx_client : FXClient.t (gmap string entry))
    (rates_data : gmap string entry) (rates : gmap string date_rates)
    (a b : Z) (d : string) (x : float) :
  strptime start "%Y-%m-%d" = Ok a -> strptime end_ "%Y-%m-%d" = Ok b ->
  a <= b ->
  breakdown = "day" \/ breakdown = "none" ->
  (FXClient.get_range Main.truthy w start end_ "EUR" "USD" fx_client).1
    = Ok rates_data ->
  rates_data !! "rates" = Some (Mapping rates) ->
  usd_rate rates d = Some x ->
  Z.of_nat (size rates) < 2 ^ 63 ->
  exists resp,
    (Main.get_summary strptime w start end_ breakdown fx_client).1 = Ok resp.
Proof.
  intros Hs He Hle Hmode Hfetch Hrates Hd Hsize.
  rewrite get_summary_validated.
  - cbn [fst]. rewrite Hfetch.
    change (rates_data0 ← Ok rates_data;
            Main.summarise rates_data0 start end_ breakdown)
      with (Main.summarise rates_data start end_ breakdown).
    unfold Main.summarise.
    rewrite (calculate_daily_metrics_chain _ _ Hrates).
    unfold mbind, result_bind, Py.bind.
    destruct (chain None (dated_rates rates)) as [|m ms] eqn:Hout.
    + exfalso. rewrite <- rate_on_usd_rate in Hd.
      apply elem_of_dated_rates in Hd.
      apply (f_equal length) in Hout. rewrite length_chain in Hout.
      destruct (dated_rates rates); [by apply not_elem_of_nil in Hd|done].
    + assert (Z.of_nat (S (length ms)) < 2 ^ 63) as Hlen.
      { change (S (length ms)) with (length (m :: ms)).
        rewrite <- Hout, length_chain.
        pose proof (length_dated_rates rates). lia. }
      unfold calculate_totals. rewrite _safe_pct_change_Ok.
      unfold mbind, result_bind, Py.bind, truediv.
      rewrite length_map. simpl length.
      rewrite (of_nat_not_zero (length ms) Hlen).
      destruct (rate m =? 0)%float; by eexists.
  - apply validate_dates_Ok. eauto.
  - unfold Main.validate_breakdown.
    by destruct Hmode as [-> | ->].
Qed.


Lemma summary_succeeds_on_usable_data_witness :
  exists resp,
    (Main.get_summary strptime_iso (upstream_up 0 two_day)
       "2025-01-01" "2025-01-02" "day" fresh_client).1 = Ok resp.
Proof.
  apply (summary_succeeds_on_usable_data strptime_iso (upstream_up 0 two_day)
           "2025-01-01" "2025-01-02" "day" fresh_client two_day two_day_series
           _ _ "2025-01-01" 1.10%float eq_refl eq_refl).
  - by vm_compute.
  - by left.
  - unfold FXClient.get_range.
    rewrite get_absent by apply lookup_empty. reflexivity.
  - reflexivity.
  - reflexivity.
  - by vm_compute.
Defined.
